(** * Emotion detector: a shallow embedding of [app.py] and [helpers.py]

    The Flask view functions and the two helper functions are embedded as
    state-passing functions over an explicit [World] (the Flask session, the
    temporary directory, standard output and the trace of calls made to the
    external libraries).  Everything the program delegates to a library
    (DeepFace, ollama, OpenCV, uuid, the clock, the file system's failures)
    is an oracle collected in the record [Env].

    Modelling choices, stated once:
    - Python [str] is [string]; file names are compared byte-wise, and
      [str.lower] acts on the ASCII letters.
    - A finite Python [float] denotes a rational number; it is modelled as
      [Q].  [float(x)] of a NumPy scalar is the identity on values, and
      ["{:.1f}"] is the correctly rounded (ties to even) one-decimal
      rendering.  NaN and the infinities are outside the model.
    - An exception is represented by its [str(e)].
    - The view functions are modelled as called; Flask's routing by HTTP
      method happens before them and is not part of the source. *)

From Stdlib Require Import ZArith QArith Qround Qabs Lqa String Ascii List Lia DecimalString.
From stdpp Require Import base gmap strings list.

Open Scope string_scope.

(** ** Python strings *)

Module PyStr.

(** ['c' in s] for a one-character needle. *)
Fixpoint contains_char (c : ascii) (s : string) : bool :=
  match s with
  | EmptyString => false
  | String d s' => if Ascii.eqb d c then true else contains_char c s'
  end.

(** [s.rsplit(sep, 1)]: split at the last occurrence of [sep]; the result
    has two elements when [sep] occurs and is [[s]] otherwise. *)
Fixpoint rsplit1_aux (sep : ascii) (s : string) : option (string * string) :=
  match s with
  | EmptyString => None
  | String d s' =>
      match rsplit1_aux sep s' with
      | Some (h, t) => Some (String d h, t)
      | None => if Ascii.eqb d sep then Some (EmptyString, s') else None
      end
  end.

Definition rsplit1 (sep : ascii) (s : string) : list string :=
  match rsplit1_aux sep s with
  | Some (h, t) => [h; t]
  | None => [s]
  end.

(** [s.split(sep)]: all the [sep]-delimited segments, left to right. *)
Fixpoint split (sep : ascii) (s : string) : list string :=
  match s with
  | EmptyString => [EmptyString]
  | String d s' =>
      if Ascii.eqb d sep then EmptyString :: split sep s'
      else match split sep s' with
           | seg :: segs => String d seg :: segs
           | [] => [String d EmptyString]
           end
  end.

Definition lower_char (c : ascii) : ascii :=
  let n := N_of_ascii c in
  if ((65 <=? n) && (n <=? 90))%N then ascii_of_N (n + 32) else c.

(** [s.lower()]. *)
Fixpoint lower (s : string) : string :=
  match s with
  | EmptyString => EmptyString
  | String c s' => String (lower_char c) (lower s')
  end.

(** [t] occurs in [s] as a contiguous substring. *)
Definition occurs_in (t s : string) : Prop :=
  exists a b, s = a +:+ t +:+ b.

End PyStr.

(** ** Python floats as rationals *)

Module PyFloat.

(** Nearest integer, ties to the even neighbour. *)
Definition round_half_even (q : Q) : Z :=
  let f := Qfloor q in
  match Qcompare (q - inject_Z f) (1 # 2) with
  | Lt => f
  | Gt => (f + 1)%Z
  | Eq => if Z.even f then f else (f + 1)%Z
  end.

(** The decimal numeral of a natural number. *)
Definition decimal (n : Z) : string :=
  NilZero.string_of_uint (N.to_uint (Z.to_N n)).

(** [f"{q:.1f}"]. *)
Definition format_1f (q : Q) : string :=
  let n := round_half_even (Qabs q * 10) in
  (if Qlt_le_dec q 0 then "-" else "")
    +:+ decimal (n / 10) +:+ "." +:+ decimal (n mod 10).

(** [round(q, d)] for a non-negative number of digits [d]. *)
Definition round_ndigits (d : nat) (q : Q) : Q :=
  inject_Z (round_half_even (q * inject_Z (10 ^ Z.of_nat d)))
    / inject_Z (10 ^ Z.of_nat d).

End PyFloat.

(** ** Data model *)

(** An exception, represented by [str(e)]. *)
Definition exn := string.

Inductive res (A : Type) : Type :=
  | Ok (a : A)
  | Exc (e : exn).
Arguments Ok {A} a.
Arguments Exc {A} e.

(** [face_data['region']]. *)
Record Box := mkBox { box_x : Z; box_y : Z; box_w : Z; box_h : Z }.

(** One element of the list returned by [DeepFace.analyze]. *)
Record FaceData := mkFaceData {
  region : Box;
  dominant_emotion : string;
  emotion : gmap string Q
}.

(** The dictionary returned by [recognize_emotion]. *)
Record DetectionResult := mkDetection {
  box : Box;
  label : string;
  confidence : Q
}.

(** An element of [session['emotion_history']]. *)
Record HistoryEntry := mkEntry {
  entry_emotion : string;
  entry_confidence : Q;
  entry_filename : string
}.

(** The Flask session: a dictionary that only ever holds the keys
    ['username'] and ['emotion_history']; [None] is an absent key.  The
    flag [session.modified], which only tells Flask to store the session
    again, is left out. *)
Record Session := mkSession {
  username : option string;
  emotion_history : option (list HistoryEntry)
}.

Definition empty_session : Session := mkSession None None.

(** An entry of [request.files]. *)
Record Upload := mkUpload { filename : string; content : string }.

Record Request := mkRequest {
  method : string;
  form : gmap string string;
  files : gmap string Upload
}.

(** A message of the chat request and the request itself. *)
Record Message := mkMessage { role : string; msg_content : string }.

Record ChatRequest := mkChat {
  model : string;
  messages : list Message;
  options : gmap string Q
}.

(** The chat response: [None] where ['message']['content'] is missing. *)
Record ChatResponse := mkChatResponse { message_content : option string }.

(** Calls made to the two adapters, in order. *)
Inductive Event :=
  | EvAnalyze (img_path : string) (actions : list string)
      (detector_backend : string) (enforce_detection : bool)
  | EvChat (req : ChatRequest).

(** A decoded image with the drawing done on it so far. *)
Inductive DrawOp :=
  | Rectangle (pt1 pt2 : Z * Z) (color : Z * Z * Z) (thickness : Z)
  | PutText (text : string) (org : Z * Z) (scale : Q) (color : Z * Z * Z)
      (thickness : Z).

Record Image := mkImage { pixels : string; drawn : list DrawOp }.

Inductive Endpoint :=
  | ep_home | ep_login | ep_logout | ep_index | ep_dashboards
  | ep_process_emotion | ep_get_history | ep_clear_history.

Inductive JsonBody :=
  | JMessage (message : string)
  | JHistory (history : list HistoryEntry)
  | JResult (image : string) (emotion_label : string) (conf : Q)
      (mood_text : string).

Inductive Response :=
  | Redirect (target : Endpoint)
  | Render (template : string) (error : option string)
  | Json (body : JsonBody) (status : Z).

Definition status_of (r : Response) : Z :=
  match r with
  | Redirect _ => 302
  | Render _ _ => 200
  | Json _ st => st
  end.

(** [jsonify(...)] returned alone carries status 200. *)
Definition jsonify (b : JsonBody) : Response := Json b 200.

Record World := mkWorld {
  session : Session;
  tmpfiles : gmap string string;
  stdout : list string;
  trace : list Event
}.

(** How [file.save(path)] ends. *)
Inductive SaveOutcome :=
  | Saved
  | SaveFailed (e : exn) (created : bool).

(** The external collaborators of one request. *)
Record Env := mkEnv {
  uuid4_hex : string;
  gettempdir : string;
  now_strftime : string;
  file_save : SaveOutcome;
  DeepFace_analyze : string -> option string -> res (list FaceData);
  ollama_chat : ChatRequest -> res ChatResponse;
  cv2_imread : option string -> option Image;
  cv2_imencode : string -> Image -> res string;
  b64encode : string -> string;
  os_remove : option exn
}.

(** ** A state and exception monad *)

Definition M (S A : Type) : Type := S -> res A * S.

Definition ret {S A} (a : A) : M S A := fun s => (Ok a, s).

Definition raise {S A} (e : exn) : M S A := fun s => (Exc e, s).

Definition bind {S A B} (m : M S A) (k : A -> M S B) : M S B :=
  fun s => match m s with
           | (Ok a, s') => k a s'
           | (Exc e, s') => (Exc e, s')
           end.

Definition get {S} : M S S := fun s => (Ok s, s).

Definition modify {S} (f : S -> S) : M S unit := fun s => (Ok tt, f s).

Declare Scope py_scope.
Delimit Scope py_scope with py.
Notation "x <- m ;; k" := (bind m (fun x => k))
  (at level 100, m at next level, right associativity) : py_scope.
Notation "m ;;; k" := (bind m (fun _ => k))
  (at level 100, right associativity) : py_scope.

(** [d[k]] on a dictionary: [KeyError] when the key is absent. *)
Definition getitem {S A} (d : gmap string A) (k : string) : M S A :=
  match d !! k with
  | Some a => ret a
  | None => raise ("'" +:+ k +:+ "'")
  end.

(** [l[i]] on a list: [IndexError] when out of range. *)
Definition list_getitem {S A} (l : list A) (i : nat) : M S A :=
  match l !! i with
  | Some a => ret a
  | None => raise "list index out of range"
  end.

Definition log_event (ev : Event) : M World unit :=
  modify (fun w => mkWorld (session w) (tmpfiles w) (stdout w) (trace w ++ [ev])).

Definition set_session (s : Session) : M World unit :=
  modify (fun w => mkWorld s (tmpfiles w) (stdout w) (trace w)).

Definition set_tmpfiles (f : gmap string string) : M World unit :=
  modify (fun w => mkWorld (session w) f (stdout w) (trace w)).

Definition print (line : string) : M World unit :=
  modify (fun w => mkWorld (session w) (tmpfiles w) (stdout w ++ [line]) (trace w)).

(** Lifting an oracle's answer into the monad. *)
Definition of_res {S A} (r : res A) : M S A :=
  match r with
  | Ok a => ret a
  | Exc e => raise e
  end.

(** ** helpers.py *)

Section Helpers.

Variable env : Env.

Local Open Scope py_scope.

(** [recognize_emotion(img_path)].  The analysis runs with
    [enforce_detection = False]; its outcome is the oracle's answer for the
    file found at the path. *)
Definition recognize_emotion (img_path : option string)
  : M World (option DetectionResult) :=
  match img_path with
  | None => ret None
  | Some p =>
      w <- get ;;
      log_event (EvAnalyze p ["emotion"] "retinaface" false) ;;;
      results <- of_res (DeepFace_analyze env p (tmpfiles w !! p)) ;;
      face_data <- list_getitem results 0 ;;
      score <- getitem (emotion face_data) (dominant_emotion face_data) ;;
      ret (Some {| box := region face_data;
                   label := dominant_emotion face_data;
                   confidence := score |})
  end.

(** The f-string of [generate_mood_content]. *)
Definition mood_prompt (emotion_label : string) (conf : Q) : string :=
  "The detected emotion is " +:+ emotion_label
  +:+ ". Suggest a 3-song playlist that matches it. Start by saying: 'Tonight's vibe is "
  +:+ emotion_label +:+ ". I'm " +:+ PyFloat.format_1f conf
  +:+ "% sure about it... (here give a short description of the mood)... For that reason, here are some songs to match the mood.' and then give the playlist you suggest. No final questions or suggestions.".

Definition system_prompt : string :=
  "You are a professional music curator and psychologist.".

Definition chat_request (emotion_label : string) (conf : Q) : ChatRequest :=
  {| model := "gemma3:1b";
     messages := [ {| role := "system"; msg_content := system_prompt |};
                   {| role := "user";
                      msg_content := mood_prompt emotion_label conf |} ];
     options := {[ "temperature" := 7 # 10 ]} |}.

(** [generate_mood_content(emotion_label, confidence)]. *)
Definition generate_mood_content (emotion_label : string) (conf : Q)
  : M World string :=
  let req := chat_request emotion_label conf in
  log_event (EvChat req) ;;;
  response <- of_res (ollama_chat env req) ;;
  match message_content response with
  | Some text => ret text
  | None => raise "'message'"
  end.

End Helpers.

(** ** app.py *)

Definition ALLOWED_EXTENSIONS : gset string :=
  {[ "png"; "jpg"; "jpeg"; "gif"; "bmp" ]}.

Definition MAX_CONTENT_LENGTH : Z := 50 * 1024 * 1024.

Local Open Scope py_scope.

(** [allowed_file(filename)]. *)
Definition allowed_file {S} (fname : string) : M S bool :=
  if PyStr.contains_char "." fname then
    ext <- list_getitem (PyStr.rsplit1 "." fname) 1 ;;
    ret (bool_decide (PyStr.lower ext ∈ ALLOWED_EXTENSIONS))
  else ret false.

(** ['username' in session]. *)
Definition logged_in (w : World) : bool :=
  match username (session w) with Some _ => true | None => false end.

(** [request.form.get(key, '')]. *)
Definition form_get (req : Request) (key : string) : string :=
  default "" (form req !! key).

Definition set_username (u : string) : M World unit :=
  w <- get ;; set_session (mkSession (Some u) (emotion_history (session w))).

Definition set_history (h : list HistoryEntry) : M World unit :=
  w <- get ;; set_session (mkSession (username (session w)) (Some h)).

(** [home()]. *)
Definition home : M World Response :=
  w <- get ;;
  if logged_in w then ret (Redirect ep_index) else ret (Redirect ep_login).

(** [login()]. *)
Definition login (req : Request) : M World Response :=
  if String.eqb (method req) "POST" then
    let user := form_get req "username" in
    let password := form_get req "password" in
    if String.eqb user "user" && String.eqb password "54321" then
      set_username user ;;;
      set_history [] ;;;
      ret (Redirect ep_index)
    else
      ret (Render "login.html" (Some "Invalid username or password"))
  else ret (Render "login.html" None).

(** [logout()]: [session.clear()]. *)
Definition logout : M World Response :=
  set_session empty_session ;;;
  ret (Redirect ep_login).

(** [index()]. *)
Definition index : M World Response :=
  w <- get ;;
  if negb (logged_in w) then ret (Redirect ep_login)
  else ret (Render "index.html" None).

(** [dashboards()]. *)
Definition dashboards : M World Response :=
  w <- get ;;
  if negb (logged_in w) then ret (Redirect ep_login)
  else ret (Render "dashboards.html" None).

(** [get_history()]. *)
Definition get_history : M World Response :=
  w <- get ;;
  if negb (logged_in w) then ret (Json (JMessage "Not authenticated") 401)
  else
    let history := default [] (emotion_history (session w)) in
    ret (jsonify (JHistory history)).

(** [clear_history()]. *)
Definition clear_history : M World Response :=
  w <- get ;;
  if negb (logged_in w) then ret (Json (JMessage "Not authenticated") 401)
  else
    set_history [] ;;;
    ret (jsonify (JMessage "History cleared")).

(** [os.path.join(a, b)] on a POSIX system. *)
Definition os_path_join (a b : string) : string :=
  if String.prefix "/" b then b
  else if String.eqb a "" || String.eqb (String.substring (String.length a - 1) 1 a) "/"
       then a +:+ b
       else a +:+ "/" +:+ b.

(** The local variables of [process_emotion] that outlive the [try] block,
    next to the world. *)
Record Frame := mkFrame { world : World; temp_path : option string }.

Definition lift {A} (m : M World A) : M Frame A :=
  fun fr => let (r, w') := m (world fr) in (r, mkFrame w' (temp_path fr)).

Definition set_temp_path (p : string) : M Frame unit :=
  modify (fun fr => mkFrame (world fr) (Some p)).

(** [try: body except Exception as e: handler(e) finally: final]. *)
Definition try_except_finally {S A} (body : M S A) (handler : exn -> M S A)
    (final : M S unit) : M S A :=
  fun s =>
    let (r, s1) := body s in
    let (r', s2) := match r with
                    | Ok a => (Ok a, s1)
                    | Exc e => handler e s1
                    end in
    match final s2 with
    | (Ok _, s3) => (r', s3)
    | (Exc e, s3) => (Exc e, s3)
    end.

Section ProcessEmotion.

Variable env : Env.
Variable req : Request.

(** [file.save(temp_path)]. *)
Definition save (file : Upload) (path : string) : M World unit :=
  w <- get ;;
  match file_save env with
  | Saved => set_tmpfiles (<[path := content file]> (tmpfiles w))
  | SaveFailed e created =>
      (if created then set_tmpfiles (<[path := ""]> (tmpfiles w)) else ret tt) ;;;
      raise e
  end.

(** [cv2.rectangle] and [cv2.putText] draw on the image in place. *)
Definition draw (op : DrawOp) (img : Image) : Image :=
  mkImage (pixels img) (drawn img ++ [op]).

(** [session['emotion_history'].append(entry)], after the key has been
    created where it was absent. *)
Definition append_history (entry : HistoryEntry) : M World unit :=
  w <- get ;;
  (match emotion_history (session w) with
   | None => set_history []
   | Some _ => ret tt
   end) ;;;
  w' <- get ;;
  set_history (default [] (emotion_history (session w')) ++ [entry]).

(** The body of the [try] block. *)
Definition process_emotion_body : M Frame Response :=
  fr <- get ;;
  if negb (logged_in (world fr)) then
    ret (Json (JMessage "Not authenticated") 401)
  else
  match files req !! "image" with
  | None => ret (Json (JMessage "No image provided") 400)
  | Some file =>
  invalid <- (if String.eqb (filename file) "" then ret true
              else ok <- allowed_file (filename file) ;; ret (negb ok)) ;;
  if invalid : bool then ret (Json (JMessage "Invalid file") 400)
  else
  let temp_filename := "temp_" +:+ uuid4_hex env +:+ ".jpg" in
  let path := os_path_join (gettempdir env) temp_filename in
  set_temp_path path ;;;
  lift (save file path) ;;;
  emotion_result <- lift (recognize_emotion env (Some path)) ;;
  match emotion_result with
  | None => ret (Json (JMessage "No face detected in image") 400)
  | Some er =>
  mood_text <- lift (generate_mood_content env (label er) (confidence er)) ;;
  fr1 <- get ;;
  match cv2_imread env (tmpfiles (world fr1) !! path) with
  | None => ret (Json (JMessage "Error reading image") 500)
  | Some img =>
  let '(x, y, w, h) := (box_x (box er), box_y (box er),
                        box_w (box er), box_h (box er)) in
  let img1 := draw (Rectangle (x, y) (x + w, y + h)%Z (0, 255, 0)%Z 2) img in
  let img2 := draw (PutText (label er +:+ " (" +:+ PyFloat.format_1f (confidence er) +:+ "%)")
                            (x, y - 10)%Z (9 # 10) (0, 255, 0)%Z 2) img1 in
  buffer <- of_res (cv2_imencode env ".jpg" img2) ;;
  let img_base64 := b64encode env buffer in
  let fname := label er +:+ "_" +:+ now_strftime env in
  let conf := confidence er in
  let history_entry := {| entry_emotion := label er;
                          entry_confidence := conf;
                          entry_filename := fname |} in
  lift (append_history history_entry) ;;;
  ret (jsonify (JResult ("data:image/jpeg;base64," +:+ img_base64)
                        (label er) conf mood_text))
  end
  end
  end.

(** The [finally] block. *)
Definition cleanup : M Frame unit :=
  fr <- get ;;
  match temp_path fr with
  | None => ret tt
  | Some p =>
      if negb (String.eqb p "") && bool_decide (is_Some (tmpfiles (world fr) !! p))
      then match os_remove env with
           | None => lift (set_tmpfiles (delete p (tmpfiles (world fr))))
           | Some e =>
               lift (print ("Warning: Failed to delete temp file " +:+ p
                            +:+ ": " +:+ e))
           end
      else ret tt
  end.

(** [process_emotion()]. *)
Definition process_emotion : M World Response :=
  fun w =>
    let (r, fr) :=
      try_except_finally process_emotion_body
        (fun e => ret (Json (JMessage ("Error: " +:+ e)) 500))
        cleanup (mkFrame w None) in
    (r, world fr).

(** The view function behind each route. *)
Definition view (ep : Endpoint) : M World Response :=
  match ep with
  | ep_home => home
  | ep_login => login req
  | ep_logout => logout
  | ep_index => index
  | ep_dashboards => dashboards
  | ep_process_emotion => process_emotion
  | ep_get_history => get_history
  | ep_clear_history => clear_history
  end.

End ProcessEmotion.

(** ** Concrete collaborators, used to run the model *)

Module Sample.

(** A detection whose score, 12.34375, is exactly representable in binary
    floating point. *)
Definition face : FaceData :=
  {| region := mkBox 10 20 30 40;
     dominant_emotion := "happy";
     emotion := {[ "happy" := 395 # 32 ]} |}.

Definition env : Env :=
  {| uuid4_hex := "0123456789abcdef0123456789abcdef";
     gettempdir := "/tmp";
     now_strftime := "20240101_120000";
     file_save := Saved;
     DeepFace_analyze := fun _ _ => Ok [face];
     ollama_chat := fun _ => Ok (mkChatResponse (Some "Tonight's vibe is happy."));
     cv2_imread := fun c => match c with
                            | Some px => Some (mkImage px [])
                            | None => None
                            end;
     cv2_imencode := fun _ img => Ok (pixels img);
     b64encode := fun b => b;
     os_remove := None |}.

Definition upload (name : string) : Request :=
  {| method := "POST"; form := ∅;
     files := {[ "image" := mkUpload name "bytes" ]} |}.

Definition credentials (user password : string) : Request :=
  {| method := "POST";
     form := {[ "username" := user; "password" := password ]};
     files := ∅ |}.

Definition anonymous : World := mkWorld empty_session ∅ [] [].

Definition entry : HistoryEntry := mkEntry "sad" (50 # 1) "sad_20231231_235959".

Definition signed_in (h : list HistoryEntry) : World :=
  mkWorld (mkSession (Some "user") (Some h)) ∅ [] [].

End Sample.

(** A name the upload validation refuses, in the words of the contract:
    empty, or without a dot, or with a last segment outside the allow-set. *)
Definition refused_name (fname : string) : Prop :=
  fname = ""
  \/ PyStr.contains_char "." fname = false
  \/ PyStr.lower (List.last (PyStr.split "." fname) "") ∉ ALLOWED_EXTENSIONS.

(** ** The exits of [process_emotion]

    The body of the [try] block leaves through one of five doors.  The
    relation [BodyOutcome] names them, with the frame (world and
    [temp_path]) each one hands to the [except] and [finally] clauses. *)

Section Outcomes.

Variable env : Env.
Variable req : Request.
Variable w : World.

(** The path assigned to [temp_path]. *)
Definition tmp_path : string :=
  os_path_join (gettempdir env) ("temp_" +:+ uuid4_hex env +:+ ".jpg").

(** The temporary directory once [file.save] has run. *)
Definition saved_files (file : Upload) : gmap string string :=
  match file_save env with
  | Saved => <[tmp_path := content file]> (tmpfiles w)
  | SaveFailed _ true => <[tmp_path := ""]> (tmpfiles w)
  | SaveFailed _ false => tmpfiles w
  end.

(** The upload passed validation. *)
Definition accepted (file : Upload) : Prop :=
  filename file <> ""
  /\ PyStr.contains_char "." (filename file) = true
  /\ PyStr.lower (List.last (PyStr.split "." (filename file)) "")
     ∈ ALLOWED_EXTENSIONS.

(** What is left of a request that failed after the upload was accepted:
    an exception, or the unreadable-image response. *)
Definition failure (r : res Response) : Prop :=
  (exists e, r = Exc e) \/ r = Ok (Json (JMessage "Error reading image") 500).

Inductive BodyOutcome : res Response -> Frame -> Prop :=
  | out_unauthenticated :
      logged_in w = false ->
      BodyOutcome (Ok (Json (JMessage "Not authenticated") 401)) (mkFrame w None)
  | out_no_image :
      logged_in w = true ->
      files req !! "image" = None ->
      BodyOutcome (Ok (Json (JMessage "No image provided") 400)) (mkFrame w None)
  | out_invalid file :
      logged_in w = true ->
      files req !! "image" = Some file ->
      refused_name (filename file) ->
      BodyOutcome (Ok (Json (JMessage "Invalid file") 400)) (mkFrame w None)
  | out_failed file r evs :
      logged_in w = true ->
      files req !! "image" = Some file ->
      accepted file ->
      failure r ->
      BodyOutcome r
        (mkFrame (mkWorld (session w) (saved_files file) (stdout w)
                    (trace w ++ evs)%list)
           (Some tmp_path))
  | out_success file fd rest score text img buffer :
      logged_in w = true ->
      files req !! "image" = Some file ->
      accepted file ->
      file_save env = Saved ->
      DeepFace_analyze env tmp_path (Some (content file)) = Ok (fd :: rest) ->
      emotion fd !! dominant_emotion fd = Some score ->
      ollama_chat env (chat_request (dominant_emotion fd) score)
        = Ok (mkChatResponse (Some text)) ->
      cv2_imencode env ".jpg" img = Ok buffer ->
      BodyOutcome
        (Ok (Json (JResult ("data:image/jpeg;base64," +:+ b64encode env buffer)
                     (dominant_emotion fd) score text) 200))
        (mkFrame
           (mkWorld
              (mkSession (username (session w))
                 (Some (default [] (emotion_history (session w))
                        ++ [mkEntry (dominant_emotion fd) score
                              (dominant_emotion fd +:+ "_" +:+ now_strftime env)])%list))
              (<[tmp_path := content file]> (tmpfiles w)) (stdout w)
              (trace w ++ [EvAnalyze tmp_path ["emotion"] "retinaface" false;
                           EvChat (chat_request (dominant_emotion fd) score)])%list)
           (Some tmp_path)).

End Outcomes.

(** The detection [recognize_emotion] builds from the analysis output. *)
Definition detection_of (results : res (list FaceData))
  : res (option DetectionResult) :=
  match results with
  | Exc e => Exc e
  | Ok [] => Exc "list index out of range"
  | Ok (fd :: _) =>
      match emotion fd !! dominant_emotion fd with
      | Some score =>
          Ok (Some {| box := region fd; label := dominant_emotion fd;
                      confidence := score |})
      | None => Exc ("'" +:+ dominant_emotion fd +:+ "'")
      end
  end.

(** The text [generate_mood_content] extracts from the chat response. *)
Definition text_of (response : res ChatResponse) : res string :=
  match response with
  | Exc e => Exc e
  | Ok resp => match message_content resp with
               | Some text => Ok text
               | None => Exc "'message'"
               end
  end.

(** The response once the [except] clause has had its say. *)
Definition response_of (r : res Response) : Response :=
  match r with
  | Ok resp => resp
  | Exc e => Json (JMessage ("Error: " +:+ e)) 500
  end.

(** The line printed when the removal fails. *)
Definition removal_warning (p : string) (e : exn) : string :=
  "Warning: Failed to delete temp file " +:+ p +:+ ": " +:+ e.

(** The world the [finally] block leaves behind. *)
Definition swept (env : Env) (fr : Frame) : World :=
  match temp_path fr with
  | None => world fr
  | Some p =>
      if negb (String.eqb p "") && bool_decide (is_Some (tmpfiles (world fr) !! p))
      then match os_remove env with
           | None => mkWorld (session (world fr)) (delete p (tmpfiles (world fr)))
                       (stdout (world fr)) (trace (world fr))
           | Some e => mkWorld (session (world fr)) (tmpfiles (world fr))
                         (stdout (world fr) ++ [removal_warning p e])%list
                         (trace (world fr))
           end
      else world fr
  end.

(** The same collaborators with another fate for [os.remove]. *)
Definition with_os_remove (o : option exn) (env : Env) : Env :=
  {| uuid4_hex := uuid4_hex env;
     gettempdir := gettempdir env;
     now_strftime := now_strftime env;
     file_save := file_save env;
     DeepFace_analyze := DeepFace_analyze env;
     ollama_chat := ollama_chat env;
     cv2_imread := cv2_imread env;
     cv2_imencode := cv2_imencode env;
     b64encode := b64encode env;
     os_remove := o |}.

(** The history a session shows: [session.get('emotion_history', [])]. *)
Definition history (w : World) : list HistoryEntry :=
  default [] (emotion_history (session w)).

(** The views that open with the guard ['username' not in session] and turn
    the request away when it holds. *)
Definition session_gated (ep : Endpoint) : bool :=
  match ep with
  | ep_index | ep_dashboards
  | ep_process_emotion | ep_get_history | ep_clear_history => true
  | ep_home | ep_login | ep_logout => false
  end.

(** The JSON views under [/api/]. *)
Definition api_endpoint (ep : Endpoint) : bool :=
  match ep with
  | ep_process_emotion | ep_get_history | ep_clear_history => true
  | _ => false
  end.

(** The requests that start the history afresh: clearing it, logging out,
    and a login POST with the right credentials. *)
Definition resets_history (ep : Endpoint) (req : Request) : bool :=
  match ep with
  | ep_clear_history | ep_logout => true
  | ep_login =>
      String.eqb (method req) "POST"
      && String.eqb (form_get req "username") "user"
      && String.eqb (form_get req "password") "54321"
  | _ => false
  end.

(** A sequence of requests served one after the other, each with its own
    collaborators. *)
Fixpoint run (steps : list (Env * Request * Endpoint)) (w : World) : World :=
  match steps with
  | [] => w
  | (env, req, ep) :: rest => run rest (snd (view env req ep w))
  end.

(** A picture without a face: with detection not enforced, the analysis
    answers with the whole frame as its region. *)
Module Faceless.

Definition face : FaceData :=
  {| region := mkBox 0 0 640 480;
     dominant_emotion := "neutral";
     emotion := {[ "neutral" := 85 # 2 ]} |}.

Definition env : Env :=
  {| uuid4_hex := uuid4_hex Sample.env;
     gettempdir := gettempdir Sample.env;
     now_strftime := now_strftime Sample.env;
     file_save := Saved;
     DeepFace_analyze := fun _ _ => Ok [face];
     ollama_chat := fun _ => Ok (mkChatResponse (Some "Tonight's vibe is neutral."));
     cv2_imread := cv2_imread Sample.env;
     cv2_imencode := cv2_imencode Sample.env;
     b64encode := b64encode Sample.env;
     os_remove := None |}.

End Faceless.

(** The views that neither detect nor touch the credentials. *)
Definition quiet (ep : Endpoint) : bool :=
  match ep with
  | ep_home | ep_index | ep_dashboards | ep_get_history | ep_clear_history => true
  | ep_login | ep_logout | ep_process_emotion => false
  end.

(** The image as it is sent back: the box and the caption drawn on it. *)
Definition annotated (er : DetectionResult) (img : Image) : Image :=
  draw (PutText (label er +:+ " (" +:+ PyFloat.format_1f (confidence er) +:+ "%)")
          (box_x (box er), box_y (box er) - 10)%Z (9 # 10) (0, 255, 0)%Z 2)
    (draw (Rectangle (box_x (box er), box_y (box er))
             (box_x (box er) + box_w (box er), box_y (box er) + box_h (box er))%Z
             (0, 255, 0)%Z 2) img).

(** The course of the [try] block once the upload has been accepted, read
    as one decision tree over the collaborators' answers: the outcome, and
    the frame with the calls made so far. *)
Definition accepted_run (env : Env) (w : World) (file : Upload)
  : res Response * Frame :=
  let p := tmp_path env in
  let frame (s : Session) (evs : list Event) :=
    mkFrame (mkWorld s (saved_files env w file) (stdout w) (trace w ++ evs)%list)
      (Some p) in
  let analysed := EvAnalyze p ["emotion"] "retinaface" false in
  match file_save env with
  | SaveFailed e _ => (Exc e, frame (session w) [])
  | Saved =>
  match detection_of (DeepFace_analyze env p (Some (content file))) with
  | Exc e => (Exc e, frame (session w) [analysed])
  | Ok None =>
      (Ok (Json (JMessage "No face detected in image") 400),
       frame (session w) [analysed])
  | Ok (Some er) =>
  let asked := EvChat (chat_request (label er) (confidence er)) in
  match text_of (ollama_chat env (chat_request (label er) (confidence er))) with
  | Exc e => (Exc e, frame (session w) [analysed; asked])
  | Ok mood_text =>
  match cv2_imread env (Some (content file)) with
  | None => (Ok (Json (JMessage "Error reading image") 500),
             frame (session w) [analysed; asked])
  | Some img =>
  match cv2_imencode env ".jpg" (annotated er img) with
  | Exc e => (Exc e, frame (session w) [analysed; asked])
  | Ok buffer =>
      (Ok (Json (JResult ("data:image/jpeg;base64," +:+ b64encode env buffer)
                   (label er) (confidence er) mood_text) 200),
       frame (mkSession (username (session w))
                (Some (default [] (emotion_history (session w))
                       ++ [mkEntry (label er) (confidence er)
                             (label er +:+ "_" +:+ now_strftime env)])%list))
         [analysed; asked])
  end end end end end.

(** The two shapes of a session the views produce: signed out with no
    history, or signed in as "user" with a history. *)
Definition consistent (s : Session) : Prop :=
  (username s = None /\ emotion_history s = None)
  \/ (username s = Some "user" /\ is_Some (emotion_history s)).

(** The file name of an entry is its emotion, an underscore and a stamp. *)
Definition stamped (e : HistoryEntry) : Prop :=
  exists stamp, entry_filename e = entry_emotion e +:+ "_" +:+ stamp.


(** The handler answers 500 with the text of the exception [e], having made
    the calls [evs]: the session is as before and, unless the removal
    fails, no temporary file is left. *)
Definition server_error (env : Env) (req : Request) (w : World)
    (e : exn) (evs : list Event) : Prop :=
  exists w',
    process_emotion env req w = (Ok (Json (JMessage ("Error: " +:+ e)) 500), w')
    /\ session w' = session w
    /\ trace w' = (trace w ++ evs)%list
    /\ (os_remove env = None -> tmpfiles w' !! tmp_path env = None).

(** Collaborators that let a request down, one at a time. *)
Module Failing.

Definition base (save : SaveOutcome)
    (analyze : string -> option string -> res (list FaceData))
    (chat : ChatRequest -> res ChatResponse)
    (imread : option string -> option Image) : Env :=
  {| uuid4_hex := "ab12";
     gettempdir := "/tmp";
     now_strftime := "20240101_120000";
     file_save := save;
     DeepFace_analyze := analyze;
     ollama_chat := chat;
     cv2_imread := imread;
     cv2_imencode := cv2_imencode Sample.env;
     b64encode := b64encode Sample.env;
     os_remove := None |}.


Definition chat_down : Env :=
  base Saved (DeepFace_analyze Sample.env) (fun _ => Exc "connection refused")
    (cv2_imread Sample.env).

Definition disk_full : Env :=
  base (SaveFailed "No space left on device" true) (DeepFace_analyze Sample.env)
    (ollama_chat Sample.env) (cv2_imread Sample.env).

Definition unreadable : Env :=
  base Saved (DeepFace_analyze Sample.env) (ollama_chat Sample.env) (fun _ => None).

Definition png : Upload := mkUpload "me.png" "bytes".

End Failing.

(** * Properties *)

(** ** Running the model *)

Example format_1f_ex1 : PyFloat.format_1f (9871 # 100) = "98.7".
Proof. reflexivity. Qed.

Example format_1f_ex2 : PyFloat.format_1f (1 # 4) = "0.2".
Proof. reflexivity. Qed.

Example format_1f_ex3 : PyFloat.format_1f (- (4 # 100)) = "-0.0".
Proof. reflexivity. Qed.

Example format_1f_ex4 : PyFloat.format_1f 100 = "100.0".
Proof. reflexivity. Qed.

Example rsplit1_ex : PyStr.rsplit1 "." "a.b.JPG" = ["a.b"; "JPG"].
Proof. reflexivity. Qed.

Example split_ex : PyStr.split "." "a.b.JPG" = ["a"; "b"; "JPG"].
Proof. reflexivity. Qed.

Example process_emotion_runs :
  process_emotion Sample.env (Sample.upload "me.JPG") (Sample.signed_in [])
  = (Ok (Json (JResult "data:image/jpeg;base64,bytes" "happy" (395 # 32)
                 "Tonight's vibe is happy.") 200),
     mkWorld (mkSession (Some "user")
                (Some [mkEntry "happy" (395 # 32) "happy_20240101_120000"]))
       ∅ []
       [EvAnalyze "/tmp/temp_0123456789abcdef0123456789abcdef.jpg" ["emotion"]
          "retinaface" false;
        EvChat (chat_request "happy" (395 # 32))]).
Proof. vm_compute. reflexivity. Qed.

(** ** File names *)

Lemma rsplit1_aux_split (c : ascii) (s : string) :
  match PyStr.rsplit1_aux c s with
  | None => PyStr.split c s = [s]
  | Some (h, t) => exists segs, PyStr.split c s = (segs ++ [t])%list /\ segs <> []
  end.
Proof.
  induction s as [|d s IH]; simpl; [reflexivity|].
  destruct (PyStr.rsplit1_aux c s) as [[h t]|].
  - destruct IH as (segs & Hs & Hne). rewrite Hs.
    destruct (Ascii.eqb d c).
    + exists ("" :: segs). split; [reflexivity | discriminate].
    + destruct segs as [|seg segs]; [congruence|].
      exists (String d seg :: segs). split; [reflexivity | discriminate].
  - rewrite IH. destruct (Ascii.eqb d c).
    + exists [""]. split; [reflexivity | discriminate].
    + reflexivity.
Qed.

Lemma rsplit1_aux_contains (c : ascii) (s : string) :
  PyStr.contains_char c s = false <-> PyStr.rsplit1_aux c s = None.
Proof.
  induction s as [|d s IH]; simpl; [tauto|].
  destruct (Ascii.eqb d c); destruct (PyStr.rsplit1_aux c s) as [[h t]|];
    split; intros H; try discriminate; try reflexivity.
  - apply IH in H. discriminate.
  - apply IH. reflexivity.
Qed.

(** The extension the code looks at is the last dot-delimited segment. *)
Lemma rsplit1_last_segment (s : string) :
  PyStr.contains_char "." s = true ->
  PyStr.rsplit1 "." s !! 1%nat = Some (List.last (PyStr.split "." s) "").
Proof.
  intros Hdot. unfold PyStr.rsplit1.
  pose proof (rsplit1_aux_split "." s) as Hs.
  destruct (PyStr.rsplit1_aux "." s) as [[h t]|] eqn:E.
  - destruct Hs as (segs & -> & _). rewrite List.last_last. reflexivity.
  - apply rsplit1_aux_contains in E. congruence.
Qed.

(** [allowed_file] never raises, and accepts exactly the names that contain
    a dot and whose last segment, lower-cased, is an allowed extension. *)
Lemma allowed_file_spec {S} (fname : string) :
  @allowed_file S fname =
    ret (PyStr.contains_char "." fname
         && bool_decide (PyStr.lower (List.last (PyStr.split "." fname) "")
                         ∈ ALLOWED_EXTENSIONS)).
Proof.
  unfold allowed_file.
  destruct (PyStr.contains_char "." fname) eqn:Hdot; [|reflexivity].
  unfold list_getitem. rewrite (rsplit1_last_segment _ Hdot). reflexivity.
Qed.

(** ** Authentication *)

(** C1. A login POST establishes a session (username set, history
    initialised to the empty list) and redirects to the main page exactly
    when the submitted pair is ("user", "54321"); for every other pair the
    login view is rendered again with an error and the session is left as
    it was. *)
Theorem login_post_session_iff_credentials (req : Request) (w : World) :
  method req = "POST" ->
  exists r w',
    login req w = (Ok r, w')
    /\ (r = Redirect ep_index
        <-> form_get req "username" = "user" /\ form_get req "password" = "54321")
    /\ (form_get req "username" = "user" /\ form_get req "password" = "54321" ->
        w' = mkWorld (mkSession (Some "user") (Some [])) (tmpfiles w) (stdout w)
               (trace w))
    /\ (~ (form_get req "username" = "user" /\ form_get req "password" = "54321") ->
        r = Render "login.html" (Some "Invalid username or password") /\ w' = w).
Proof.
  intros Hpost. unfold login. rewrite Hpost. simpl.
  generalize (form_get req "username") (form_get req "password").
  intros u p.
  destruct (String.eqb_spec u "user") as [->|Hu];
    destruct (String.eqb_spec p "54321") as [->|Hp]; simpl;
    (eexists _, _; split; [reflexivity|]; simpl;
     repeat split; try tauto; try discriminate).
Qed.

Lemma login_post_session_iff_credentials_witness :
  method (Sample.credentials "user" "54321") = "POST"
  /\ exists r w',
       login (Sample.credentials "user" "54321") Sample.anonymous = (Ok r, w')
       /\ r = Redirect ep_index
       /\ session w' = mkSession (Some "user") (Some []).
Proof.
  split; [reflexivity|].
  destruct (login_post_session_iff_credentials
              (Sample.credentials "user" "54321") Sample.anonymous eq_refl)
    as (r & w' & Hrun & Hiff & Hok & _).
  exists r, w'. split; [exact Hrun|]. split.
  - apply Hiff. split; reflexivity.
  - rewrite Hok; [reflexivity | split; reflexivity].
Defined.


(** ** The exits of the request handler *)

Lemma save_run env file p w :
  save env file p w =
    (match file_save env with Saved => Ok tt | SaveFailed e _ => Exc e end,
     mkWorld (session w)
       (match file_save env with
        | Saved => <[p := content file]> (tmpfiles w)
        | SaveFailed _ true => <[p := ""]> (tmpfiles w)
        | SaveFailed _ false => tmpfiles w
        end) (stdout w) (trace w)).
Proof.
  unfold save. destruct w as [s f o t].
  destruct (file_save env) as [|e [|]]; reflexivity.
Qed.

Lemma recognize_emotion_run env p w :
  recognize_emotion env (Some p) w =
    (detection_of (DeepFace_analyze env p (tmpfiles w !! p)),
     mkWorld (session w) (tmpfiles w) (stdout w)
       (trace w ++ [EvAnalyze p ["emotion"] "retinaface" false])%list).
Proof.
  unfold recognize_emotion, detection_of. destruct w as [s f o t].
  cbn. destruct (DeepFace_analyze env p (f !! p)) as [[|fd rest]|e]; cbn;
    try reflexivity.
  unfold getitem. destruct (emotion fd !! dominant_emotion fd); reflexivity.
Qed.

Lemma generate_mood_content_run env l c w :
  generate_mood_content env l c w =
    (text_of (ollama_chat env (chat_request l c)),
     mkWorld (session w) (tmpfiles w) (stdout w)
       (trace w ++ [EvChat (chat_request l c)])%list).
Proof.
  unfold generate_mood_content, text_of. destruct w as [s f o t]. cbn.
  destruct (ollama_chat env (chat_request l c)) as [[[text|]]|e]; reflexivity.
Qed.

Lemma append_history_run entry w :
  append_history entry w =
    (Ok tt,
     mkWorld (mkSession (username (session w))
                (Some (default [] (emotion_history (session w)) ++ [entry])%list))
       (tmpfiles w) (stdout w) (trace w)).
Proof.
  unfold append_history. destruct w as [[u [h|]] f o t]; reflexivity.
Qed.

Lemma not_refused_accepted (file : Upload) :
  String.eqb (filename file) "" = false ->
  PyStr.contains_char "." (filename file)
  && bool_decide (PyStr.lower (List.last (PyStr.split "." (filename file)) "")
                  ∈ ALLOWED_EXTENSIONS) = true ->
  accepted file.
Proof.
  intros Hne Hok. apply String.eqb_neq in Hne.
  apply andb_true_iff in Hok as [Hdot Hin]. apply bool_decide_eq_true in Hin.
  repeat split; assumption.
Qed.

Lemma out_failed_eq env req w file r s f o t :
  logged_in w = true ->
  files req !! "image" = Some file ->
  accepted file ->
  failure r ->
  s = session w ->
  f = saved_files env w file ->
  o = stdout w ->
  (exists evs, t = (trace w ++ evs)%list) ->
  BodyOutcome env req w r (mkFrame (mkWorld s f o t) (Some (tmp_path env))).
Proof.
  intros Hin Hfile Hacc Hfail -> -> -> [evs ->]. by eapply out_failed.
Qed.

Ltac trace_suffix :=
  first [ exists []; symmetry; apply app_nil_r
        | eexists [_]; reflexivity
        | eexists [_; _]; rewrite <- app_assoc; reflexivity ].

Ltac fails_with :=
  intros [= <- <-]; eapply out_failed_eq;
  [ eassumption | eassumption | eassumption
  | first [ left; eexists; reflexivity | by right ]
  | reflexivity | reflexivity | reflexivity | trace_suffix ].

(** One step of the monad: run the first action of a sequence. *)
Ltac run_lift lem :=
  unfold bind at 1; unfold lift at 1; cbn [world temp_path]; rewrite lem;
  cbn [session tmpfiles stdout trace username emotion_history].

Lemma process_emotion_body_outcome env req w r fr :
  process_emotion_body env req (mkFrame w None) = (r, fr) ->
  BodyOutcome env req w r fr.
Proof.
  unfold process_emotion_body. unfold bind at 1. unfold get at 1.
  cbv beta iota. unfold world at 1.
  destruct (logged_in w) eqn:Hin; simpl negb; cbv iota.
  2:{ intros [= <- <-]. by constructor. }
  destruct (files req !! "image") as [file|] eqn:Hfile.
  2:{ intros [= <- <-]. by constructor. }
  unfold bind at 1.
  destruct (String.eqb (filename file) "") eqn:Hempty.
  { intros [= <- <-]. apply String.eqb_eq in Hempty.
    eapply out_invalid; eauto. by left. }
  rewrite allowed_file_spec. unfold bind at 1. unfold ret at 1 2.
  destruct (PyStr.contains_char "." (filename file)
            && bool_decide (PyStr.lower (List.last (PyStr.split "." (filename file)) "")
                            ∈ ALLOWED_EXTENSIONS)) eqn:Hok; simpl negb; cbv iota.
  2:{ intros [= <- <-]. eapply out_invalid; eauto. right.
      apply andb_false_iff in Hok as [Hdot|Hext]; [by left|].
      right. by apply bool_decide_eq_false in Hext. }
  pose proof (not_refused_accepted _ Hempty Hok) as Hacc.
  fold (tmp_path env). cbv beta iota delta [negb].
  unfold ret at 1. cbv beta iota.
  unfold bind at 1. unfold set_temp_path, modify. cbn [world temp_path].
  run_lift save_run.
  fold (saved_files env w file).
  destruct (file_save env) as [|e created] eqn:Hsave; [|fails_with].
  run_lift recognize_emotion_run.
  assert (Hlook : saved_files env w file !! tmp_path env = Some (content file)).
  { unfold saved_files. rewrite Hsave. apply lookup_insert_eq. }
  rewrite Hlook.
  destruct (DeepFace_analyze env (tmp_path env) (Some (content file)))
    as [[|fd rest]|e] eqn:Han; cbn [detection_of]; [fails_with | | fails_with].
  destruct (emotion fd !! dominant_emotion fd) as [score|] eqn:Hscore;
    [|fails_with].
  cbn [label confidence box].
  run_lift generate_mood_content_run.
  destruct (ollama_chat env (chat_request (dominant_emotion fd) score))
    as [[[text|]]|e] eqn:Hchat; cbn [text_of message_content];
    [ | fails_with | fails_with].
  unfold bind at 1. unfold get at 1. cbn [world tmpfiles]. rewrite Hlook.
  destruct (cv2_imread env (Some (content file))) as [img|] eqn:Hread;
    [|fails_with].
  unfold bind at 1.
  match goal with
  | |- context [cv2_imencode env ".jpg" ?i] =>
      destruct (cv2_imencode env ".jpg" i) as [buffer|e] eqn:Henc
  end; cbn [of_res]; [unfold ret at 1 | unfold raise at 1; fails_with].
  run_lift append_history_run.
  intros [= <- <-]. unfold saved_files. rewrite Hsave. rewrite <- app_assoc.
  eapply out_success; eauto.
Qed.

Lemma cleanup_run env fr :
  cleanup env fr = (Ok tt, mkFrame (swept env fr) (temp_path fr)).
Proof.
  unfold cleanup, swept. destruct fr as [w [p|]]; cbn; [|reflexivity].
  destruct (negb (String.eqb p "") && bool_decide (is_Some (tmpfiles w !! p)));
    [|reflexivity].
  destruct (os_remove env); reflexivity.
Qed.

(** The handler always answers: the response is the body's, or the 500 of
    the [except] clause, and the world is the one the [finally] block
    leaves. *)
Lemma process_emotion_run env req w :
  process_emotion env req w =
    (Ok (response_of (fst (process_emotion_body env req (mkFrame w None)))),
     swept env (snd (process_emotion_body env req (mkFrame w None)))).
Proof.
  unfold process_emotion, try_except_finally.
  destruct (process_emotion_body env req (mkFrame w None)) as [[resp|e] fr];
    cbn [fst snd response_of]; unfold ret; rewrite cleanup_run; reflexivity.
Qed.

Lemma os_path_join_nonempty (a b : string) : b <> "" -> os_path_join a b <> "".
Proof.
  intros Hb. unfold os_path_join.
  destruct (String.prefix "/" b); [assumption|].
  destruct (String.eqb a "" || String.eqb (String.substring (String.length a - 1) 1 a) "/");
    destruct a; unfold String.append; fold String.append; congruence.
Qed.

Lemma tmp_path_nonempty env : String.eqb (tmp_path env) "" = false.
Proof.
  apply String.eqb_neq. apply os_path_join_nonempty. discriminate.
Qed.

Lemma body_independent_of_removal o env req :
  process_emotion_body (with_os_remove o env) req = process_emotion_body env req.
Proof. reflexivity. Qed.

Lemma process_emotion_outcome env req w :
  exists r fr,
    BodyOutcome env req w r fr
    /\ process_emotion env req w = (Ok (response_of r), swept env fr).
Proof.
  destruct (process_emotion_body env req (mkFrame w None)) as [r fr] eqn:Hbody.
  exists r, fr. split.
  - by apply process_emotion_body_outcome.
  - rewrite process_emotion_run, Hbody. reflexivity.
Qed.

Lemma refused_not_accepted (file : Upload) :
  refused_name (filename file) -> accepted file -> False.
Proof.
  intros [Hempty|[Hdot|Hext]] (Hne & Hhas & Hin); [done | congruence | done].
Qed.

Lemma swept_session env fr : session (swept env fr) = session (world fr).
Proof.
  unfold swept. destruct (temp_path fr) as [p|]; [|reflexivity].
  destruct (_ && _); [|reflexivity]. destruct (os_remove env); reflexivity.
Qed.

Lemma swept_trace env fr : trace (swept env fr) = trace (world fr).
Proof.
  unfold swept. destruct (temp_path fr) as [p|]; [|reflexivity].
  destruct (_ && _); [|reflexivity]. destruct (os_remove env); reflexivity.
Qed.

Lemma process_emotion_unauthenticated env req w :
  logged_in w = false ->
  process_emotion env req w = (Ok (Json (JMessage "Not authenticated") 401), w).
Proof.
  intros Hout. destruct (process_emotion_outcome env req w) as (r & fr & Hout' & ->).
  inversion Hout'; subst; try congruence. reflexivity.
Qed.

(** ** Session gate *)

(** C6, as stated, fails on the page views: without a session [/index]
    answers with a redirect to the login view, not with status 401. *)
Lemma unauthenticated_index_is_redirected :
  session_gated ep_index = true
  /\ logged_in Sample.anonymous = false
  /\ view Sample.env (Sample.upload "me.jpg") ep_index Sample.anonymous
     = (Ok (Redirect ep_login), Sample.anonymous)
  /\ status_of (Redirect ep_login) <> 401%Z.
Proof. repeat split. discriminate. Qed.

(** C6, amended. Without a session, each of the three API views
    (process-emotion, get-history, clear-history) answers 401 with
    "Not authenticated" whatever the request holds, a missing or invalid
    upload included, and changes nothing; the gated page views ([/index],
    [/dashboards]) redirect to the login view instead. *)
Theorem unauthenticated_gated_request (env : Env) (req : Request)
    (ep : Endpoint) (w : World) :
  logged_in w = false ->
  session_gated ep = true ->
  view env req ep w =
    (Ok (if api_endpoint ep then Json (JMessage "Not authenticated") 401
         else Redirect ep_login), w).
Proof.
  intros Hout Hgated. destruct ep; try discriminate; cbn [view api_endpoint].
  - unfold index, bind, get. rewrite Hout. reflexivity.
  - unfold dashboards, bind, get. rewrite Hout. reflexivity.
  - by apply process_emotion_unauthenticated.
  - unfold get_history, bind, get. rewrite Hout. reflexivity.
  - unfold clear_history, bind, get. rewrite Hout. reflexivity.
Qed.

Lemma unauthenticated_gated_request_witness :
  logged_in Sample.anonymous = false
  /\ session_gated ep_process_emotion = true
  /\ view Sample.env (Sample.upload "notes.exe") ep_process_emotion Sample.anonymous
     = (Ok (Json (JMessage "Not authenticated") 401), Sample.anonymous).
Proof.
  split; [reflexivity|]. split; [reflexivity|].
  exact (unauthenticated_gated_request Sample.env (Sample.upload "notes.exe")
           ep_process_emotion Sample.anonymous eq_refl eq_refl).
Defined.

(** ** Upload validation *)

(** C4. In a signed-in session, an upload whose file name is empty, has no
    dot, or has a last dot-delimited segment that is not (case-insensitively)
    one of png, jpg, jpeg, gif, bmp is answered with 400 "Invalid file"; the
    world is left exactly as it was, so the detection adapter is not
    invoked. *)
Theorem refused_upload_is_400 (env : Env) (req : Request) (w : World)
    (file : Upload) :
  logged_in w = true ->
  files req !! "image" = Some file ->
  refused_name (filename file) ->
  process_emotion env req w = (Ok (Json (JMessage "Invalid file") 400), w)
  /\ trace (snd (process_emotion env req w)) = trace w.
Proof.
  intros Hin Hfile Href.
  destruct (process_emotion_outcome env req w) as (r & fr & Hout & ->).
  inversion Hout; subst; try congruence.
  - split; reflexivity.
  - exfalso. eapply refused_not_accepted; [exact Href|]. congruence.
  - exfalso. eapply refused_not_accepted; [exact Href|]. congruence.
Qed.

Lemma refused_upload_is_400_witness :
  logged_in (Sample.signed_in []) = true
  /\ files (Sample.upload "holiday.jpg.EXE") !! "image"
     = Some (mkUpload "holiday.jpg.EXE" "bytes")
  /\ refused_name "holiday.jpg.EXE"
  /\ process_emotion Sample.env (Sample.upload "holiday.jpg.EXE") (Sample.signed_in [])
     = (Ok (Json (JMessage "Invalid file") 400), Sample.signed_in []).
Proof.
  assert (Href : refused_name "holiday.jpg.EXE").
  { right. right. vm_compute. intros H. discriminate H. }
  split; [reflexivity|]. split; [reflexivity|]. split; [exact Href|].
  exact (proj1 (refused_upload_is_400 Sample.env (Sample.upload "holiday.jpg.EXE")
                  (Sample.signed_in []) (mkUpload "holiday.jpg.EXE" "bytes")
                  eq_refl eq_refl Href)).
Defined.

(** ** History *)

(** A signed-in session with an empty history stays so under the quiet
    views. *)
Lemma quiet_view_keeps_empty_history env req ep w :
  quiet ep = true ->
  logged_in w = true ->
  emotion_history (session w) = Some [] ->
  snd (view env req ep w) = w.
Proof.
  intros Hquiet Hin Hempty. destruct ep; try discriminate; cbn [view].
  - unfold home, bind, get. by rewrite Hin.
  - unfold index, bind, get. by rewrite Hin.
  - unfold dashboards, bind, get. by rewrite Hin.
  - unfold get_history, bind, get. by rewrite Hin.
  - unfold clear_history, bind, get. rewrite Hin. cbn.
    destruct w as [[u h] f o t]. cbn in *. by rewrite Hempty.
Qed.

Lemma quiet_run_keeps_empty_history steps w :
  Forall (fun '(env, req, ep) => quiet ep = true) steps ->
  logged_in w = true ->
  emotion_history (session w) = Some [] ->
  run steps w = w.
Proof.
  induction steps as [|[[env req] ep] steps IH]; intros Hall Hin Hempty;
    cbn [run]; [reflexivity|].
  apply Forall_cons in Hall as [Hquiet Hall].
  rewrite (quiet_view_keeps_empty_history env req ep w Hquiet Hin Hempty).
  by apply IH.
Qed.

(** C7. In a signed-in session, clear-history reports success, and a
    get-history that follows returns the empty list; this also holds when
    page views and other history requests, but no detection, come in
    between. *)
Theorem clear_then_get_history_is_empty (w : World) :
  logged_in w = true ->
  exists w1,
    clear_history w = (Ok (Json (JMessage "History cleared") 200), w1)
    /\ get_history w1 = (Ok (Json (JHistory []) 200), w1)
    /\ emotion_history (session w1) = Some []
    /\ forall steps,
         Forall (fun '(env, req, ep) => quiet ep = true) steps ->
         get_history (run steps w1) = (Ok (Json (JHistory []) 200), w1).
Proof.
  intros Hin. unfold clear_history, bind, get. rewrite Hin.
  cbn. eexists. split; [reflexivity|].
  assert (Hin1 : logged_in
                   (mkWorld (mkSession (username (session w)) (Some []))
                      (tmpfiles w) (stdout w) (trace w)) = true).
  { unfold logged_in in *. cbn. by destruct (username (session w)). }
  assert (Hget : get_history
                   (mkWorld (mkSession (username (session w)) (Some []))
                      (tmpfiles w) (stdout w) (trace w))
                 = (Ok (Json (JHistory []) 200),
                    mkWorld (mkSession (username (session w)) (Some []))
                      (tmpfiles w) (stdout w) (trace w))).
  { unfold get_history, bind, get. rewrite Hin1. reflexivity. }
  split; [exact Hget|]. split; [reflexivity|].
  intros steps Hall.
  rewrite (quiet_run_keeps_empty_history steps _ Hall Hin1 eq_refl).
  exact Hget.
Qed.

Lemma clear_then_get_history_is_empty_witness :
  logged_in (Sample.signed_in [Sample.entry]) = true
  /\ exists w1,
       clear_history (Sample.signed_in [Sample.entry])
       = (Ok (Json (JMessage "History cleared") 200), w1)
       /\ get_history w1 = (Ok (Json (JHistory []) 200), w1)
       /\ emotion_history (session w1) = Some [].
Proof.
  split; [reflexivity|].
  destruct (clear_then_get_history_is_empty (Sample.signed_in [Sample.entry]) eq_refl)
    as (w1 & Hclear & Hget & Hempty & _).
  exists w1. auto.
Defined.

(** Serving a view never raises: there is always a response. *)
Lemma view_total env req ep w : exists r w', view env req ep w = (Ok r, w').
Proof.
  destruct ep; cbn [view].
  - unfold home, bind, get. destruct (logged_in w); eauto.
  - unfold login. destruct (String.eqb (method req) "POST"); [|eauto].
    destruct (_ && _); eauto.
  - unfold logout. eauto.
  - unfold index, bind, get. destruct (negb (logged_in w)); eauto.
  - unfold dashboards, bind, get. destruct (negb (logged_in w)); eauto.
  - destruct (process_emotion_outcome env req w) as (r & fr & _ & ->). eauto.
  - unfold get_history, bind, get. destruct (negb (logged_in w)); eauto.
  - unfold clear_history, bind, get. destruct (negb (logged_in w)); eauto.
Qed.

(** What one request appends to the history, unless it resets it. *)
Lemma view_appends env req ep w :
  resets_history ep req = false ->
  exists new, history (snd (view env req ep w)) = (history w ++ new)%list
              /\ (length new <= 1)%nat.
Proof.
  intros Hkeep.
  assert (Hsame : forall w', w' = w ->
            exists new, history w' = (history w ++ new)%list /\ (length new <= 1)%nat).
  { intros w' ->. exists []. rewrite app_nil_r. split; [reflexivity | cbn; lia]. }
  destruct ep; cbn [view]; try discriminate.
  - apply Hsame. unfold home, bind, get. by destruct (logged_in w).
  - apply Hsame. unfold login. cbn [resets_history] in Hkeep.
    destruct (String.eqb (method req) "POST"); [|reflexivity].
    cbn in Hkeep. rewrite Hkeep. reflexivity.
  - apply Hsame. unfold index, bind, get. by destruct (negb (logged_in w)).
  - apply Hsame. unfold dashboards, bind, get. by destruct (negb (logged_in w)).
  - destruct (process_emotion_outcome env req w) as (r & fr & Hout & ->).
    cbn [snd]. unfold history. rewrite swept_session.
    inversion Hout; subst; cbn [world session emotion_history];
      try (exists []; rewrite app_nil_r; split; [reflexivity | cbn; lia]).
    eexists [_]. split; [reflexivity | cbn; lia].
  - apply Hsame. unfold get_history, bind, get. by destruct (negb (logged_in w)).
Qed.

(** C8, as stated, fails on a login: a POST with the right credentials in a
    session that already has one entry starts the history afresh, although
    the request is not clear-history. *)
Lemma login_resets_history :
  ep_login <> ep_clear_history
  /\ history (Sample.signed_in [Sample.entry]) = [Sample.entry]
  /\ view Sample.env (Sample.credentials "user" "54321") ep_login
       (Sample.signed_in [Sample.entry])
     = (Ok (Redirect ep_index), Sample.signed_in [])
  /\ history (Sample.signed_in []) = [].
Proof. repeat split. discriminate. Qed.

(** C8, amended. get-history returns the session's history verbatim and
    leaves the world as it is.  Every request other than clear-history,
    logout and a login POST with the right credentials keeps the entries
    already recorded, in place and unchanged, and adds at most one entry
    after them; so across any sequence of such requests the history only
    grows at its end, in the order of the requests. *)
Theorem history_is_append_only :
  (forall w, logged_in w = true ->
     get_history w = (Ok (Json (JHistory (history w)) 200), w))
  /\ (forall env req ep w, resets_history ep req = false ->
        exists r w' new,
          view env req ep w = (Ok r, w')
          /\ history w' = (history w ++ new)%list
          /\ (length new <= 1)%nat)
  /\ (forall steps w,
        Forall (fun '(env, req, ep) => resets_history ep req = false) steps ->
        exists new, history (run steps w) = (history w ++ new)%list).
Proof.
  split; [|split].
  - intros w Hin. unfold get_history, bind, get. rewrite Hin. reflexivity.
  - intros env req ep w Hkeep.
    destruct (view_total env req ep w) as (r & w' & Hview).
    destruct (view_appends env req ep w Hkeep) as (new & Hnew & Hlen).
    rewrite Hview in Hnew. eauto 6.
  - induction steps as [|[[env req] ep] steps IH]; intros w Hall; cbn [run].
    + exists []. by rewrite app_nil_r.
    + apply Forall_cons in Hall as [Hkeep Hall].
      destruct (view_appends env req ep w Hkeep) as (new & Hnew & _).
      destruct (IH (snd (view env req ep w)) Hall) as (new' & Hnew').
      exists (new ++ new')%list. by rewrite Hnew', Hnew, app_assoc.
Qed.

Lemma history_is_append_only_witness :
  logged_in (Sample.signed_in [Sample.entry]) = true
  /\ get_history (Sample.signed_in [Sample.entry])
     = (Ok (Json (JHistory [Sample.entry]) 200), Sample.signed_in [Sample.entry])
  /\ exists new,
       history (run [(Sample.env, Sample.upload "a.png", ep_process_emotion);
                     (Sample.env, Sample.upload "b.txt", ep_process_emotion);
                     (Sample.env, Sample.upload "c.gif", ep_dashboards)]
                  (Sample.signed_in [Sample.entry]))
       = ([Sample.entry] ++ new)%list.
Proof.
  destruct history_is_append_only as (Hget & _ & Hrun).
  split; [reflexivity|]. split.
  - exact (Hget (Sample.signed_in [Sample.entry]) eq_refl).
  - apply (Hrun [(Sample.env, Sample.upload "a.png", ep_process_emotion);
                 (Sample.env, Sample.upload "b.txt", ep_process_emotion);
                 (Sample.env, Sample.upload "c.gif", ep_dashboards)]
             (Sample.signed_in [Sample.entry])).
    repeat constructor.
Defined.

(** Two detections in a row are listed in the order they were made. *)
Example two_detections_in_order :
  history (run [(Sample.env, Sample.upload "a.png", ep_process_emotion);
                (Faceless.env, Sample.upload "b.jpeg", ep_process_emotion)]
             (Sample.signed_in []))
  = [mkEntry "happy" (395 # 32) "happy_20240101_120000";
     mkEntry "neutral" (85 # 2) "neutral_20240101_120000"].
Proof. vm_compute. reflexivity. Qed.

(** ** Detection *)

(** C3, as stated, fails on the rounding: a detection with score 12.34375
    is recorded and returned with that very score, which is none of its
    roundings to zero, one or two decimals. *)
Lemma recorded_confidence_is_not_rounded :
  process_emotion Sample.env (Sample.upload "me.JPG") (Sample.signed_in [])
  = (Ok (Json (JResult "data:image/jpeg;base64,bytes" "happy" (395 # 32)
                 "Tonight's vibe is happy.") 200),
     mkWorld (mkSession (Some "user")
                (Some [mkEntry "happy" (395 # 32) "happy_20240101_120000"]))
       ∅ []
       [EvAnalyze "/tmp/temp_0123456789abcdef0123456789abcdef.jpg" ["emotion"]
          "retinaface" false;
        EvChat (chat_request "happy" (395 # 32))])
  /\ ~ (395 # 32 == PyFloat.round_ndigits 0 (395 # 32))
  /\ ~ (395 # 32 == PyFloat.round_ndigits 1 (395 # 32))
  /\ ~ (395 # 32 == PyFloat.round_ndigits 2 (395 # 32)).
Proof.
  split; [vm_compute; reflexivity|].
  repeat split; vm_compute; discriminate.
Qed.

(** C3, amended. When process-emotion answers with a detection, the label
    and the confidence of the response are the dominant emotion of the
    first analysed face and its score, exactly one entry is appended to the
    session's history, and that entry carries this label and this score as
    they are, without rounding; the confidence returned therefore lies in
    [0,100] whenever the score does. *)
Theorem successful_detection_is_recorded (env : Env) (req : Request)
    (w w' : World) (image lbl mood : string) (conf : Q) :
  process_emotion env req w = (Ok (Json (JResult image lbl conf mood) 200), w') ->
  exists file fd rest,
    files req !! "image" = Some file
    /\ DeepFace_analyze env (tmp_path env) (Some (content file)) = Ok (fd :: rest)
    /\ lbl = dominant_emotion fd
    /\ emotion fd !! dominant_emotion fd = Some conf
    /\ emotion_history (session w')
       = Some (history w ++ [mkEntry lbl conf (lbl +:+ "_" +:+ now_strftime env)])%list
    /\ (forall score : Q, emotion fd !! dominant_emotion fd = Some score ->
          (0 <= score <= 100)%Q -> (0 <= conf <= 100)%Q).
Proof.
  intros Hrun.
  destruct (process_emotion_outcome env req w) as (r & fr & Hout & Heq).
  rewrite Heq in Hrun. injection Hrun as Hresp Hworld.
  inversion Hout; subst r fr; cbn [response_of] in Hresp; try discriminate.
  - match goal with H : failure _ |- _ => destruct H as [[e ->]| ->] end;
      discriminate.
  - injection Hresp as <- <- <- <-.
    exists file, fd, rest. subst w'. rewrite swept_session.
    cbn [world session emotion_history].
    split; [assumption|]. split; [assumption|]. split; [reflexivity|].
    split; [assumption|]. split; [reflexivity|].
    intros s Hs Hrange. assert (s = score) as -> by congruence. exact Hrange.
Qed.

Lemma successful_detection_is_recorded_witness :
  exists w',
    process_emotion Sample.env (Sample.upload "me.JPG") (Sample.signed_in [])
    = (Ok (Json (JResult "data:image/jpeg;base64,bytes" "happy" (395 # 32)
                   "Tonight's vibe is happy.") 200), w')
    /\ emotion_history (session w')
       = Some [mkEntry "happy" (395 # 32) "happy_20240101_120000"].
Proof.
  eexists. split; [vm_compute; reflexivity|].
  destruct (successful_detection_is_recorded Sample.env (Sample.upload "me.JPG")
              (Sample.signed_in []) _ _ _ _ _ process_emotion_runs)
    as (file & fd & rest & _ & _ & _ & _ & Hhist & _).
  exact Hhist.
Defined.

(** C2. The "No face detected in image" answer is out of reach: whatever
    the request, the session and the collaborators, process-emotion never
    gives it.  For a picture without a face, for which the analysis (run
    without enforcing detection) reports the whole frame as a face, the
    handler answers 200 and records an entry. *)
Theorem no_face_answer_is_unreachable :
  (forall env req w,
     fst (process_emotion env req w)
     <> Ok (Json (JMessage "No face detected in image") 400))
  /\ process_emotion Faceless.env (Sample.upload "wall.jpg") (Sample.signed_in [])
     = (Ok (Json (JResult "data:image/jpeg;base64,bytes" "neutral" (85 # 2)
                    "Tonight's vibe is neutral.") 200),
        mkWorld (mkSession (Some "user")
                   (Some [mkEntry "neutral" (85 # 2) "neutral_20240101_120000"]))
          ∅ []
          [EvAnalyze "/tmp/temp_0123456789abcdef0123456789abcdef.jpg" ["emotion"]
             "retinaface" false;
           EvChat (chat_request "neutral" (85 # 2))]).
Proof.
  split; [|vm_compute; reflexivity].
  intros env req w.
  destruct (process_emotion_outcome env req w) as (r & fr & Hout & ->).
  cbn [fst]. inversion Hout; subst; cbn [response_of]; try discriminate.
  match goal with H : failure _ |- _ => destruct H as [[e ->]| ->] end;
    cbn [response_of]; discriminate.
Qed.

(** ** Temporary file *)

(** The temporary file is in place when the [try] block is left, on every
    path that got as far as writing it. *)
Lemma written_file_in_frame env req w file r fr :
  files req !! "image" = Some file ->
  (file_save env = Saved \/ exists e, file_save env = SaveFailed e true) ->
  BodyOutcome env req w r fr ->
  accepted file ->
  logged_in w = true ->
  temp_path fr = Some (tmp_path env)
  /\ is_Some (tmpfiles (world fr) !! tmp_path env)
  /\ stdout (world fr) = stdout w.
Proof.
  intros Hfile Hsave Hout Hacc Hin.
  inversion Hout; subst; try congruence.
  - exfalso. eapply refused_not_accepted; [eassumption|]. congruence.
  - cbn [temp_path world tmpfiles stdout]. split; [reflexivity|].
    split; [|reflexivity].
    assert (file0 = file) as -> by congruence.
    unfold saved_files. destruct Hsave as [-> | [e ->]];
      rewrite lookup_insert_eq; eauto.
  - cbn [temp_path world tmpfiles stdout]. split; [reflexivity|].
    split; [|reflexivity]. rewrite lookup_insert_eq. eauto.
Qed.

(** C5. Whenever process-emotion has written its temporary file (the
    session is signed in, the upload is accepted and [file.save] created
    the file, whether or not it then failed), the handler still answers,
    and: if the removal succeeds the file is gone when the handler returns,
    whatever the path taken after the write; if the removal fails, a
    warning is printed and the response, the session and the calls made are
    the same as when it succeeds. *)
Theorem temp_file_is_removed (env : Env) (req : Request) (w : World)
    (file : Upload) :
  logged_in w = true ->
  files req !! "image" = Some file ->
  accepted file ->
  (file_save env = Saved \/ exists e, file_save env = SaveFailed e true) ->
  exists resp w0,
    process_emotion (with_os_remove None env) req w = (Ok resp, w0)
    /\ tmpfiles w0 !! tmp_path env = None
    /\ stdout w0 = stdout w
    /\ forall e, exists w1,
         process_emotion (with_os_remove (Some e) env) req w = (Ok resp, w1)
         /\ stdout w1 = (stdout w ++ [removal_warning (tmp_path env) e])%list
         /\ session w1 = session w0
         /\ trace w1 = trace w0.
Proof.
  intros Hin Hfile Hacc Hsave.
  destruct (process_emotion_body env req (mkFrame w None)) as [r fr] eqn:Hbody.
  pose proof (process_emotion_body_outcome _ _ _ _ _ Hbody) as Hout.
  destruct (written_file_in_frame _ _ _ _ _ _ Hfile Hsave Hout Hacc Hin)
    as (Hpath & Hthere & Hstdout).
  assert (Hswept : forall o,
            swept (with_os_remove o env) fr =
            match o with
            | None => mkWorld (session (world fr))
                        (delete (tmp_path env) (tmpfiles (world fr)))
                        (stdout (world fr)) (trace (world fr))
            | Some e => mkWorld (session (world fr)) (tmpfiles (world fr))
                          (stdout (world fr) ++ [removal_warning (tmp_path env) e])%list
                          (trace (world fr))
            end).
  { intros o. unfold swept. rewrite Hpath, tmp_path_nonempty.
    rewrite bool_decide_eq_true_2 by assumption. reflexivity. }
  exists (response_of r), (swept (with_os_remove None env) fr).
  split; [|split; [|split]].
  - rewrite process_emotion_run, body_independent_of_removal, Hbody. reflexivity.
  - rewrite Hswept. cbn [tmpfiles]. apply lookup_delete_eq.
  - rewrite Hswept. cbn [stdout]. exact Hstdout.
  - intros e. exists (swept (with_os_remove (Some e) env) fr). split; [|split; [|split]].
    + rewrite process_emotion_run, body_independent_of_removal, Hbody. reflexivity.
    + rewrite Hswept. cbn [stdout]. by rewrite Hstdout.
    + by rewrite !swept_session.
    + by rewrite !swept_trace.
Qed.

Lemma temp_file_is_removed_witness :
  exists resp w0,
    process_emotion (with_os_remove None Sample.env) (Sample.upload "me.JPG")
      (Sample.signed_in []) = (Ok resp, w0)
    /\ tmpfiles w0 !! tmp_path Sample.env = None
    /\ exists w1,
         process_emotion (with_os_remove (Some "Permission denied") Sample.env)
           (Sample.upload "me.JPG") (Sample.signed_in []) = (Ok resp, w1)
         /\ stdout w1 =
            [removal_warning (tmp_path Sample.env) "Permission denied"].
Proof.
  assert (Hacc : accepted (mkUpload "me.JPG" "bytes")).
  { split; [discriminate|]. split; [reflexivity|]. vm_compute. reflexivity. }
  destruct (temp_file_is_removed Sample.env (Sample.upload "me.JPG")
              (Sample.signed_in []) (mkUpload "me.JPG" "bytes")
              eq_refl eq_refl Hacc (or_introl eq_refl))
    as (resp & w0 & Hrun & Hgone & _ & Hfail).
  exists resp, w0. split; [exact Hrun|]. split; [exact Hgone|].
  destruct (Hfail "Permission denied") as (w1 & Hrun1 & Hout1 & _).
  exists w1. split; [exact Hrun1 | exact Hout1].
Defined.

(** ** Mood content *)

Lemma round_half_even_nearest (q : Q) :
  (Qabs (inject_Z (PyFloat.round_half_even q) - q) <= 1 # 2)%Q.
Proof.
  unfold PyFloat.round_half_even.
  pose proof (Qfloor_le q) as Hlo. pose proof (Qlt_floor q) as Hhi.
  rewrite inject_Z_plus in Hhi. change (inject_Z 1) with 1%Q in Hhi.
  apply Qabs_Qle_condition.
  destruct (Qcompare (q - inject_Z (Qfloor q)) (1 # 2)) eqn:Hc.
  - apply Qeq_alt in Hc. destruct (Z.even (Qfloor q));
      rewrite ?inject_Z_plus; change (inject_Z 1) with 1%Q; split; lra.
  - apply Qlt_alt in Hc. split; lra.
  - apply Qgt_alt in Hc. rewrite inject_Z_plus. change (inject_Z 1) with 1%Q.
    split; lra.
Qed.

Lemma decimal_digit (n : Z) :
  exists d : ascii,
    PyFloat.decimal (n mod 10) = String d "" /\ (48 <= N_of_ascii d <= 57)%N.
Proof.
  pose proof (Z.mod_pos_bound n 10 eq_refl) as Hm.
  assert (n mod 10 = 0 \/ n mod 10 = 1 \/ n mod 10 = 2 \/ n mod 10 = 3
          \/ n mod 10 = 4 \/ n mod 10 = 5 \/ n mod 10 = 6 \/ n mod 10 = 7
          \/ n mod 10 = 8 \/ n mod 10 = 9)%Z as Hcases by lia.
  repeat destruct Hcases as [-> | Hcases]; try rewrite Hcases;
    (eexists; split; [reflexivity | vm_compute; split; discriminate]).
Qed.

(** ["{:.1f}"] prints an optional sign, the whole part, a dot and exactly
    one digit; the number printed is a nearest tenth of the magnitude. *)
Lemma format_1f_one_decimal (q : Q) :
  exists (sign : string) (n : Z) (d : ascii),
    PyFloat.format_1f q = sign +:+ PyFloat.decimal (n / 10) +:+ "." +:+ String d ""
    /\ (sign = "" \/ sign = "-")
    /\ (48 <= N_of_ascii d <= 57)%N
    /\ PyFloat.decimal (n mod 10) = String d ""
    /\ (Qabs (inject_Z n - Qabs q * 10) <= 1 # 2)%Q.
Proof.
  unfold PyFloat.format_1f.
  destruct (decimal_digit (PyFloat.round_half_even (Qabs q * 10)))
    as (d & Hd & Hrange).
  exists (if Qlt_le_dec q 0 then "-" else ""),
         (PyFloat.round_half_even (Qabs q * 10)), d.
  rewrite Hd. split; [reflexivity|].
  split; [destruct (Qlt_le_dec q 0); auto|].
  split; [exact Hrange|]. split; [reflexivity|].
  apply round_half_even_nearest.
Qed.

Lemma string_app_assoc (a b c : string) : (a +:+ b) +:+ c = a +:+ b +:+ c.
Proof.
  induction a as [|x a IH]; [reflexivity|].
  change (String x ((a +:+ b) +:+ c) = String x (a +:+ b +:+ c)).
  by rewrite IH.
Qed.

Ltac occurs a b :=
  exists a, b; unfold mood_prompt; rewrite ?string_app_assoc; reflexivity.

(** C9. Whatever the label and the confidence, [generate_mood_content]
    makes exactly one call to the text-generation adapter, with the model
    "gemma3:1b", the temperature 0.7 and, after the system message, a user
    prompt that names the emotion, states the confidence printed with one
    decimal, asks for a short description of the mood and for a 3-song
    playlist, and rules out final questions or suggestions. *)
Theorem mood_content_request (env : Env) (emotion_label : string) (conf : Q)
    (w : World) :
  trace (snd (generate_mood_content env emotion_label conf w))
  = (trace w ++ [EvChat (chat_request emotion_label conf)])%list
  /\ model (chat_request emotion_label conf) = "gemma3:1b"
  /\ options (chat_request emotion_label conf) = {[ "temperature" := 7 # 10 ]}
  /\ messages (chat_request emotion_label conf)
     = [mkMessage "system" "You are a professional music curator and psychologist.";
        mkMessage "user" (mood_prompt emotion_label conf)]
  /\ PyStr.occurs_in ("The detected emotion is " +:+ emotion_label +:+ ".")
       (mood_prompt emotion_label conf)
  /\ PyStr.occurs_in ("Tonight's vibe is " +:+ emotion_label +:+ ". I'm "
                      +:+ PyFloat.format_1f conf +:+ "% sure about it")
       (mood_prompt emotion_label conf)
  /\ PyStr.occurs_in "(here give a short description of the mood)"
       (mood_prompt emotion_label conf)
  /\ PyStr.occurs_in "Suggest a 3-song playlist that matches it."
       (mood_prompt emotion_label conf)
  /\ PyStr.occurs_in "No final questions or suggestions."
       (mood_prompt emotion_label conf)
  /\ exists (sign : string) (n : Z) (d : ascii),
       PyFloat.format_1f conf
       = sign +:+ PyFloat.decimal (n / 10) +:+ "." +:+ String d ""
       /\ (sign = "" \/ sign = "-")
       /\ (48 <= N_of_ascii d <= 57)%N
       /\ PyFloat.decimal (n mod 10) = String d ""
       /\ (Qabs (inject_Z n - Qabs conf * 10) <= 1 # 2)%Q.
Proof.
  split; [by rewrite generate_mood_content_run|].
  do 3 (split; [reflexivity|]).
  split.
  { occurs ""
      (" Suggest a 3-song playlist that matches it. Start by saying: 'Tonight's vibe is "
       +:+ emotion_label +:+ ". I'm " +:+ PyFloat.format_1f conf
       +:+ "% sure about it... (here give a short description of the mood)... For that reason, here are some songs to match the mood.' and then give the playlist you suggest. No final questions or suggestions."). }
  split.
  { occurs ("The detected emotion is " +:+ emotion_label
            +:+ ". Suggest a 3-song playlist that matches it. Start by saying: '")
      ("... (here give a short description of the mood)... For that reason, here are some songs to match the mood.' and then give the playlist you suggest. No final questions or suggestions."). }
  split.
  { occurs ("The detected emotion is " +:+ emotion_label
            +:+ ". Suggest a 3-song playlist that matches it. Start by saying: 'Tonight's vibe is "
            +:+ emotion_label +:+ ". I'm " +:+ PyFloat.format_1f conf
            +:+ "% sure about it... ")
      ("... For that reason, here are some songs to match the mood.' and then give the playlist you suggest. No final questions or suggestions."). }
  split.
  { occurs ("The detected emotion is " +:+ emotion_label +:+ ". ")
      (" Start by saying: 'Tonight's vibe is "
       +:+ emotion_label +:+ ". I'm " +:+ PyFloat.format_1f conf
       +:+ "% sure about it... (here give a short description of the mood)... For that reason, here are some songs to match the mood.' and then give the playlist you suggest. No final questions or suggestions."). }
  split.
  { occurs ("The detected emotion is " +:+ emotion_label
            +:+ ". Suggest a 3-song playlist that matches it. Start by saying: 'Tonight's vibe is "
            +:+ emotion_label +:+ ". I'm " +:+ PyFloat.format_1f conf
            +:+ "% sure about it... (here give a short description of the mood)... For that reason, here are some songs to match the mood.' and then give the playlist you suggest. ")
      "". }
  apply format_1f_one_decimal.
Qed.

(** ** Recognition *)

(** C10. [recognize_emotion] answers [None] exactly when it is given no
    path.  Given a path it calls the analysis once, with detection not
    enforced, and never answers [None]: an output whose first element has a
    score for its dominant emotion yields the result built from that first
    element, whatever follows it, and anything else is an exception. *)
Theorem recognize_emotion_none_iff_no_path (env : Env) (w : World) :
  recognize_emotion env None w = (Ok None, w)
  /\ (forall img_path,
        fst (recognize_emotion env img_path w) = Ok None <-> img_path = None)
  /\ (forall p,
        trace (snd (recognize_emotion env (Some p) w))
        = (trace w ++ [EvAnalyze p ["emotion"] "retinaface" false])%list)
  /\ (forall p fd rest score,
        DeepFace_analyze env p (tmpfiles w !! p) = Ok (fd :: rest) ->
        emotion fd !! dominant_emotion fd = Some score ->
        fst (recognize_emotion env (Some p) w)
        = Ok (Some {| box := region fd; label := dominant_emotion fd;
                      confidence := score |}))
  /\ (forall p,
        (exists r, fst (recognize_emotion env (Some p) w) = Ok (Some r))
        \/ (exists e, fst (recognize_emotion env (Some p) w) = Exc e)).
Proof.
  split; [reflexivity|]. split; [|split; [|split]].
  - intros [p|]; [|by split].
    rewrite recognize_emotion_run. cbn [fst]. split; [|discriminate].
    unfold detection_of.
    destruct (DeepFace_analyze env p (tmpfiles w !! p)) as [[|fd rest]|e];
      try discriminate.
    destruct (emotion fd !! dominant_emotion fd); discriminate.
  - intros p. by rewrite recognize_emotion_run.
  - intros p fd rest score Han Hscore.
    rewrite recognize_emotion_run. cbn [fst]. unfold detection_of.
    by rewrite Han, Hscore.
  - intros p. rewrite recognize_emotion_run. cbn [fst]. unfold detection_of.
    destruct (DeepFace_analyze env p (tmpfiles w !! p)) as [[|fd rest]|e]; eauto.
    destruct (emotion fd !! dominant_emotion fd); eauto.
Qed.

Lemma recognize_emotion_none_iff_no_path_witness :
  DeepFace_analyze Faceless.env "/tmp/wall.jpg" (tmpfiles Sample.anonymous !! "/tmp/wall.jpg")
  = Ok [Faceless.face]
  /\ emotion Faceless.face !! dominant_emotion Faceless.face = Some (85 # 2)
  /\ fst (recognize_emotion Faceless.env (Some "/tmp/wall.jpg") Sample.anonymous)
     = Ok (Some {| box := mkBox 0 0 640 480; label := "neutral";
                   confidence := 85 # 2 |}).
Proof.
  split; [reflexivity|]. split; [vm_compute; reflexivity|].
  destruct (recognize_emotion_none_iff_no_path Faceless.env Sample.anonymous)
    as (_ & _ & _ & Hfirst & _).
  apply (Hfirst "/tmp/wall.jpg" Faceless.face [] (85 # 2)).
  - reflexivity.
  - vm_compute. reflexivity.
Defined.

(** * Further properties *)

(** ** [allowed_file] *)

Lemma rsplit1_aux_stem_ext (stem ext : string) :
  PyStr.contains_char "." ext = false ->
  PyStr.rsplit1_aux "." (stem +:+ "." +:+ ext) = Some (stem, ext).
Proof.
  intros Hext. apply rsplit1_aux_contains in Hext.
  induction stem as [|c stem IH].
  - change (PyStr.rsplit1_aux "." (String "." ext) = Some ("", ext)).
    cbn [PyStr.rsplit1_aux]. rewrite Hext. reflexivity.
  - change (PyStr.rsplit1_aux "." (String c (stem +:+ "." +:+ ext))
            = Some (String c stem, ext)).
    cbn [PyStr.rsplit1_aux]. rewrite IH. reflexivity.
Qed.

Lemma contains_char_app (c : ascii) (a b : string) :
  PyStr.contains_char c (a +:+ String c b) = true.
Proof.
  induction a as [|d a IH].
  - change (PyStr.contains_char c (String c b) = true). cbn.
    by rewrite Ascii.eqb_refl.
  - change (PyStr.contains_char c (String d (a +:+ String c b)) = true). cbn.
    rewrite IH. by destruct (Ascii.eqb d c).
Qed.

Lemma lower_char_dot (c : ascii) :
  Ascii.eqb (PyStr.lower_char c) "." = Ascii.eqb c ".".
Proof. destruct c as [[] [] [] [] [] [] [] []]; reflexivity. Qed.

Lemma lower_char_idempotent (c : ascii) :
  PyStr.lower_char (PyStr.lower_char c) = PyStr.lower_char c.
Proof. destruct c as [[] [] [] [] [] [] [] []]; reflexivity. Qed.

Lemma lower_idempotent (s : string) : PyStr.lower (PyStr.lower s) = PyStr.lower s.
Proof.
  induction s as [|c s IH]; [reflexivity|]. cbn.
  by rewrite lower_char_idempotent, IH.
Qed.

Lemma contains_dot_lower (s : string) :
  PyStr.contains_char "." (PyStr.lower s) = PyStr.contains_char "." s.
Proof.
  induction s as [|c s IH]; [reflexivity|]. cbn.
  by rewrite lower_char_dot, IH.
Qed.

Lemma rsplit1_aux_lower (s : string) :
  PyStr.rsplit1_aux "." (PyStr.lower s)
  = match PyStr.rsplit1_aux "." s with
    | Some (h, t) => Some (PyStr.lower h, PyStr.lower t)
    | None => None
    end.
Proof.
  induction s as [|c s IH]; [reflexivity|]. cbn. rewrite IH.
  destruct (PyStr.rsplit1_aux "." s) as [[h t]|]; [reflexivity|].
  rewrite lower_char_dot. by destruct (Ascii.eqb c ".").
Qed.

(** X1. [allowed_file] never raises: behind the test ['.' in filename] the
    index [1] into the result of [rsplit] is in range.  It leaves the state
    alone and answers [True] exactly for the names that contain a dot and
    whose last dot-delimited segment, lower-cased, is an allowed
    extension. *)
Theorem allowed_file_accepts_iff {S : Type} (fname : string) (s : S) :
  exists b : bool,
    allowed_file fname s = (Ok b, s)
    /\ (b = true <->
        PyStr.contains_char "." fname = true
        /\ PyStr.lower (List.last (PyStr.split "." fname) "") ∈ ALLOWED_EXTENSIONS).
Proof.
  rewrite allowed_file_spec. eexists. split; [reflexivity|].
  rewrite andb_true_iff, bool_decide_eq_true. reflexivity.
Qed.

(** X2. Only the last extension counts: for an extension without a dot,
    whatever stands before the last dot (nothing, or a stem with further
    dots), the name is accepted exactly when the extension, lower-cased,
    is allowed. *)
Theorem allowed_file_last_extension {S : Type} (stem ext : string) (s : S) :
  PyStr.contains_char "." ext = false ->
  allowed_file (stem +:+ "." +:+ ext) s
  = (Ok (bool_decide (PyStr.lower ext ∈ ALLOWED_EXTENSIONS)), s).
Proof.
  intros Hext. unfold allowed_file.
  change (stem +:+ "." +:+ ext) with (stem +:+ String "." ext) at 1.
  rewrite contains_char_app. unfold PyStr.rsplit1.
  rewrite (rsplit1_aux_stem_ext stem ext Hext). reflexivity.
Qed.

Lemma allowed_file_last_extension_witness :
  PyStr.contains_char "." "PNG" = false
  /\ allowed_file ("photo.exe" +:+ "." +:+ "PNG") tt = (Ok true, tt)
  /\ PyStr.contains_char "." "exe" = false
  /\ allowed_file ("photo.png" +:+ "." +:+ "exe") tt = (Ok false, tt).
Proof.
  split; [reflexivity|]. split.
  - exact (allowed_file_last_extension "photo.exe" "PNG" tt eq_refl).
  - split; [reflexivity|].
    exact (allowed_file_last_extension "photo.png" "exe" tt eq_refl).
Defined.

(** X3. The validation is blind to case: a name and its lower-casing are
    accepted or refused alike. *)
Theorem allowed_file_ignores_case {S : Type} (fname : string) (s : S) :
  allowed_file (PyStr.lower fname) s = allowed_file fname s.
Proof.
  unfold allowed_file. rewrite contains_dot_lower.
  destruct (PyStr.contains_char "." fname); [|reflexivity].
  unfold PyStr.rsplit1. rewrite rsplit1_aux_lower.
  destruct (PyStr.rsplit1_aux "." fname) as [[h t]|]; [|reflexivity].
  unfold bind, list_getitem, ret. cbn. by rewrite lower_idempotent.
Qed.

(** ** The handler, path by path *)

Lemma body_after_validation env req w file :
  logged_in w = true ->
  files req !! "image" = Some file ->
  accepted file ->
  process_emotion_body env req (mkFrame w None) = accepted_run env w file.
Proof.
  intros Hin Hfile (Hne & Hdot & Hext).
  unfold process_emotion_body. unfold bind at 1. unfold get at 1.
  cbv beta iota. unfold world at 1. rewrite Hin. cbn [negb]. cbv iota.
  rewrite Hfile. unfold bind at 1.
  apply String.eqb_neq in Hne. rewrite Hne.
  rewrite allowed_file_spec. unfold bind at 1. unfold ret at 1 2.
  rewrite Hdot, bool_decide_eq_true_2 by exact Hext.
  cbn [andb negb]. cbv beta iota. unfold ret at 1. cbv beta iota.
  fold (tmp_path env). unfold accepted_run.
  unfold bind at 1. unfold set_temp_path, modify. cbn [world temp_path].
  run_lift save_run. fold (saved_files env w file).
  destruct (file_save env) as [|e created] eqn:Hsave.
  2:{ by rewrite app_nil_r. }
  run_lift recognize_emotion_run.
  assert (Hlook : saved_files env w file !! tmp_path env = Some (content file)).
  { unfold saved_files. rewrite Hsave. apply lookup_insert_eq. }
  rewrite Hlook.
  destruct (detection_of (DeepFace_analyze env (tmp_path env) (Some (content file))))
    as [[er|]|e]; [|reflexivity|reflexivity].
  run_lift generate_mood_content_run.
  destruct (text_of (ollama_chat env (chat_request (label er) (confidence er))))
    as [mood_text|e]; rewrite <- app_assoc; [|reflexivity].
  unfold bind at 1. unfold get at 1. cbn [world tmpfiles]. rewrite Hlook.
  destruct (cv2_imread env (Some (content file))) as [img|]; [|reflexivity].
  unfold bind at 1. fold (annotated er img).
  destruct (cv2_imencode env ".jpg" (annotated er img)) as [buffer|e];
    cbn [of_res]; [unfold ret at 1 | reflexivity].
  run_lift append_history_run. reflexivity.
Qed.

Lemma swept_gone env fr :
  os_remove env = None ->
  temp_path fr = Some (tmp_path env) ->
  tmpfiles (swept env fr) !! tmp_path env = None.
Proof.
  intros Hrm Hpath. unfold swept. rewrite Hpath, tmp_path_nonempty, Hrm.
  cbn [negb andb]. case_bool_decide as Hthere.
  - cbn [tmpfiles]. apply lookup_delete_eq.
  - destruct (tmpfiles (world fr) !! tmp_path env) eqn:Hlook; [|reflexivity].
    exfalso. apply Hthere. eauto.
Qed.

Lemma exception_is_500 env req w file e evs :
  logged_in w = true ->
  files req !! "image" = Some file ->
  accepted file ->
  accepted_run env w file
  = (Exc e, mkFrame (mkWorld (session w) (saved_files env w file) (stdout w)
                       (trace w ++ evs)%list) (Some (tmp_path env))) ->
  server_error env req w e evs.
Proof.
  intros Hin Hfile Hacc Hrun. unfold server_error.
  rewrite process_emotion_run, (body_after_validation _ _ _ _ Hin Hfile Hacc), Hrun.
  cbn [fst snd response_of]. eexists. split; [reflexivity|].
  split; [by rewrite swept_session|]. split; [by rewrite swept_trace|].
  intros Hrm. by apply swept_gone.
Qed.



(** X5. When detection succeeded but the text generation raises, the
    handler answers 500 with the text of that error; both adapters were
    called, yet nothing is recorded in the history, and the temporary file
    is gone unless the removal fails. *)
Theorem chat_failure_is_500 (env : Env) (req : Request) (w : World)
    (file : Upload) (fd : FaceData) (rest : list FaceData) (score : Q) (e : exn) :
  logged_in w = true ->
  files req !! "image" = Some file ->
  accepted file ->
  file_save env = Saved ->
  DeepFace_analyze env (tmp_path env) (Some (content file)) = Ok (fd :: rest) ->
  emotion fd !! dominant_emotion fd = Some score ->
  ollama_chat env (chat_request (dominant_emotion fd) score) = Exc e ->
  server_error env req w e
    [EvAnalyze (tmp_path env) ["emotion"] "retinaface" false;
     EvChat (chat_request (dominant_emotion fd) score)].
Proof.
  intros Hin Hfile Hacc Hsave Han Hscore Hchat.
  apply (exception_is_500 _ _ _ file); try assumption.
  unfold accepted_run. rewrite Hsave, Han. cbn [detection_of]. rewrite Hscore.
  cbn [label confidence]. by rewrite Hchat.
Qed.

Lemma chat_failure_is_500_witness :
  server_error Failing.chat_down (Sample.upload "me.png")
    (Sample.signed_in [Sample.entry]) "connection refused"
    [EvAnalyze "/tmp/temp_ab12.jpg" ["emotion"] "retinaface" false;
     EvChat (chat_request "happy" (395 # 32))].
Proof.
  assert (Hacc : accepted Failing.png).
  { split; [discriminate|]. split; [reflexivity|]. vm_compute. reflexivity. }
  assert (Hscore : emotion Sample.face !! dominant_emotion Sample.face
                   = Some (395 # 32)).
  { vm_compute. reflexivity. }
  exact (chat_failure_is_500 Failing.chat_down (Sample.upload "me.png")
           (Sample.signed_in [Sample.entry]) Failing.png
           Sample.face [] (395 # 32) "connection refused"
           eq_refl eq_refl Hacc eq_refl eq_refl Hscore eq_refl).
Defined.

(** X6. When [file.save] raises, the handler answers 500 with the text of
    that error without calling either adapter; the session is as before,
    and whatever [file.save] left at the temporary path is removed unless
    the removal fails. *)
Theorem save_failure_is_500 (env : Env) (req : Request) (w : World)
    (file : Upload) (e : exn) (created : bool) :
  logged_in w = true ->
  files req !! "image" = Some file ->
  accepted file ->
  file_save env = SaveFailed e created ->
  server_error env req w e [].
Proof.
  intros Hin Hfile Hacc Hsave.
  apply (exception_is_500 _ _ _ file); try assumption.
  unfold accepted_run. by rewrite Hsave.
Qed.

Lemma save_failure_is_500_witness :
  server_error Failing.disk_full (Sample.upload "me.png")
    (Sample.signed_in [Sample.entry]) "No space left on device" [].
Proof.
  assert (Hacc : accepted Failing.png).
  { split; [discriminate|]. split; [reflexivity|]. vm_compute. reflexivity. }
  exact (save_failure_is_500 Failing.disk_full (Sample.upload "me.png")
           (Sample.signed_in [Sample.entry]) Failing.png
           "No space left on device" true eq_refl eq_refl Hacc eq_refl).
Defined.

(** X7. When detection and text generation succeeded but the saved file
    cannot be read back as an image, the handler answers 500 with the
    message "Error reading image": both adapters were already called,
    nothing is recorded in the history, and the temporary file is gone
    unless the removal fails. *)
Theorem unreadable_image_is_500 (env : Env) (req : Request) (w : World)
    (file : Upload) (fd : FaceData) (rest : list FaceData) (score : Q)
    (text : string) :
  logged_in w = true ->
  files req !! "image" = Some file ->
  accepted file ->
  file_save env = Saved ->
  DeepFace_analyze env (tmp_path env) (Some (content file)) = Ok (fd :: rest) ->
  emotion fd !! dominant_emotion fd = Some score ->
  ollama_chat env (chat_request (dominant_emotion fd) score)
  = Ok (mkChatResponse (Some text)) ->
  cv2_imread env (Some (content file)) = None ->
  exists w',
    process_emotion env req w
    = (Ok (Json (JMessage "Error reading image") 500), w')
    /\ session w' = session w
    /\ trace w' = (trace w ++ [EvAnalyze (tmp_path env) ["emotion"] "retinaface" false;
                               EvChat (chat_request (dominant_emotion fd) score)])%list
    /\ (os_remove env = None -> tmpfiles w' !! tmp_path env = None).
Proof.
  intros Hin Hfile Hacc Hsave Han Hscore Hchat Hread.
  rewrite process_emotion_run, (body_after_validation _ _ _ _ Hin Hfile Hacc).
  unfold accepted_run. rewrite Hsave, Han. cbn [detection_of]. rewrite Hscore.
  cbn [label confidence]. rewrite Hchat. cbn [text_of message_content].
  rewrite Hread. cbn [fst snd response_of]. eexists. split; [reflexivity|].
  split; [by rewrite swept_session|]. split; [by rewrite swept_trace|].
  intros Hrm. by apply swept_gone.
Qed.

Lemma unreadable_image_is_500_witness :
  exists w',
    process_emotion Failing.unreadable (Sample.upload "me.png")
      (Sample.signed_in [Sample.entry])
    = (Ok (Json (JMessage "Error reading image") 500), w')
    /\ session w' = session (Sample.signed_in [Sample.entry]).
Proof.
  assert (Hacc : accepted Failing.png).
  { split; [discriminate|]. split; [reflexivity|]. vm_compute. reflexivity. }
  assert (Hscore : emotion Sample.face !! dominant_emotion Sample.face
                   = Some (395 # 32)).
  { vm_compute. reflexivity. }
  destruct (unreadable_image_is_500 Failing.unreadable (Sample.upload "me.png")
              (Sample.signed_in [Sample.entry]) Failing.png
              Sample.face [] (395 # 32) "Tonight's vibe is happy."
              eq_refl eq_refl Hacc eq_refl eq_refl Hscore eq_refl eq_refl)
    as (w' & Hrun & Hsession & _).
  exists w'. split; assumption.
Defined.

(** X8. A signed-in request without an ['image'] part is answered with 400
    "No image provided", and the world is left exactly as it was. *)
Theorem missing_image_is_400 (env : Env) (req : Request) (w : World) :
  logged_in w = true ->
  files req !! "image" = None ->
  process_emotion env req w = (Ok (Json (JMessage "No image provided") 400), w).
Proof.
  intros Hin Hfile.
  destruct (process_emotion_outcome env req w) as (r & fr & Hout & ->).
  inversion Hout; subst; try congruence. reflexivity.
Qed.

Lemma missing_image_is_400_witness :
  logged_in (Sample.signed_in []) = true
  /\ files (Sample.credentials "user" "54321") !! "image" = None
  /\ process_emotion Sample.env (Sample.credentials "user" "54321")
       (Sample.signed_in [])
     = (Ok (Json (JMessage "No image provided") 400), Sample.signed_in []).
Proof.
  split; [reflexivity|]. split; [reflexivity|].
  exact (missing_image_is_400 Sample.env (Sample.credentials "user" "54321")
           (Sample.signed_in []) eq_refl eq_refl).
Defined.

(** X9. A 400 or 401 from process-emotion means that nothing happened: the
    session, the temporary directory, the output and the calls made to the
    adapters are exactly as before the request. *)
Theorem client_error_changes_nothing (env : Env) (req : Request) (w w' : World)
    (resp : Response) :
  process_emotion env req w = (Ok resp, w') ->
  status_of resp = 400%Z \/ status_of resp = 401%Z ->
  w' = w.
Proof.
  intros Hrun Hstatus.
  destruct (process_emotion_outcome env req w) as (r & fr & Hout & Heq).
  rewrite Heq in Hrun. injection Hrun as <- <-.
  inversion Hout; subst; cbn [response_of status_of] in Hstatus;
    try reflexivity.
  - match goal with H : failure _ |- _ => destruct H as [[e ->]| ->] end;
      cbn [response_of status_of] in Hstatus; destruct Hstatus; discriminate.
  - destruct Hstatus; discriminate.
Qed.

Lemma client_error_changes_nothing_witness :
  process_emotion Sample.env (Sample.upload "notes.txt") (Sample.signed_in [])
  = (Ok (Json (JMessage "Invalid file") 400), Sample.signed_in [])
  /\ Sample.signed_in [] = Sample.signed_in [].
Proof.
  assert (Hrun : process_emotion Sample.env (Sample.upload "notes.txt")
                   (Sample.signed_in [])
                 = (Ok (Json (JMessage "Invalid file") 400), Sample.signed_in [])).
  { vm_compute. reflexivity. }
  split; [exact Hrun|].
  exact (client_error_changes_nothing Sample.env (Sample.upload "notes.txt")
           (Sample.signed_in []) (Sample.signed_in []) _ Hrun (or_introl eq_refl)).
Defined.

(** X10. process-emotion always answers, and touches the session only when
    it answers with a result: either the response is a result with status
    200 and exactly one entry, carrying the response's label and
    confidence, is appended to the history while the user name stays; or
    the response is a message with status 400, 401 or 500 and the session
    is as before. *)
Theorem session_changes_only_with_result (env : Env) (req : Request) (w : World) :
  exists resp w',
    process_emotion env req w = (Ok resp, w')
    /\ ((exists image lbl conf mood,
           resp = Json (JResult image lbl conf mood) 200
           /\ session w'
              = mkSession (username (session w))
                  (Some (history w
                         ++ [mkEntry lbl conf (lbl +:+ "_" +:+ now_strftime env)])%list))
        \/ (exists msg st,
              resp = Json (JMessage msg) st
              /\ (st = 400 \/ st = 401 \/ st = 500)%Z
              /\ session w' = session w)).
Proof.
  destruct (process_emotion_outcome env req w) as (r & fr & Hout & ->).
  eexists _, _. split; [reflexivity|]. rewrite swept_session.
  inversion Hout; subst; cbn [response_of world session].
  - right. eexists _, _. split; [reflexivity|]. auto.
  - right. eexists _, _. split; [reflexivity|]. auto.
  - right. eexists _, _. split; [reflexivity|]. auto.
  - right. match goal with H : failure _ |- _ => destruct H as [[e ->]| ->] end;
      cbn [response_of]; eexists _, _; (split; [reflexivity|]); auto.
  - left. eexists _, _, _, _. split; reflexivity.
Qed.

(** ** What a request leaves behind *)

Lemma body_files env req w r fr :
  BodyOutcome env req w r fr ->
  (forall q, q <> tmp_path env -> tmpfiles (world fr) !! q = tmpfiles w !! q)
  /\ stdout (world fr) = stdout w
  /\ (temp_path fr = None /\ world fr = w \/ temp_path fr = Some (tmp_path env)).
Proof.
  intros Hout. inversion Hout; subst; cbn [world temp_path tmpfiles stdout].
  1-3: by auto.
  - split; [|auto]. intros q Hq. unfold saved_files.
    destruct (file_save env) as [|e [|]]; by rewrite ?lookup_insert_ne.
  - split; [|auto]. intros q Hq. by rewrite lookup_insert_ne.
Qed.

(** X11. process-emotion touches no file but its own temporary one, and
    when that path was free before the request and the removal does not
    fail, the temporary directory and the output are afterwards exactly
    as they were: nothing is retained, on any path through the handler. *)
Theorem temporary_directory_is_restored (env : Env) (req : Request) (w : World) :
  (forall q, q <> tmp_path env ->
     tmpfiles (snd (process_emotion env req w)) !! q = tmpfiles w !! q)
  /\ (os_remove env = None ->
      tmpfiles w !! tmp_path env = None ->
      tmpfiles (snd (process_emotion env req w)) = tmpfiles w
      /\ stdout (snd (process_emotion env req w)) = stdout w).
Proof.
  destruct (process_emotion_outcome env req w) as (r & fr & Hout & ->).
  cbn [snd]. destruct (body_files _ _ _ _ _ Hout) as (Hframe & Hstdout & Hpath).
  assert (Hother : forall q, q <> tmp_path env ->
            tmpfiles (swept env fr) !! q = tmpfiles w !! q).
  { intros q Hq. unfold swept.
    destruct Hpath as [[-> ->] | ->]; [reflexivity|].
    destruct (_ && _); [|by apply Hframe].
    destruct (os_remove env); cbn [tmpfiles]; [by apply Hframe|].
    rewrite lookup_delete_ne by done. by apply Hframe. }
  split; [exact Hother|].
  intros Hrm Hfree. destruct Hpath as [[Hnone Hw] | Hsome].
  - unfold swept. rewrite Hnone, Hw. auto.
  - split.
    + apply map_eq. intros q. destruct (decide (q = tmp_path env)) as [->|Hq].
      * rewrite Hfree. by apply swept_gone.
      * by apply Hother.
    + unfold swept. rewrite Hsome, Hrm. destruct (_ && _); exact Hstdout.
Qed.

Lemma temporary_directory_is_restored_witness :
  os_remove Sample.env = None
  /\ tmpfiles (Sample.signed_in []) !! tmp_path Sample.env = None
  /\ tmpfiles (snd (process_emotion Sample.env (Sample.upload "me.JPG")
                      (Sample.signed_in [])))
     = tmpfiles (Sample.signed_in []).
Proof.
  split; [reflexivity|]. split; [reflexivity|].
  exact (proj1 (proj2 (temporary_directory_is_restored Sample.env
                         (Sample.upload "me.JPG") (Sample.signed_in []))
                  eq_refl eq_refl)).
Defined.




(** ** Sessions over many requests *)

(** The history after one request: as before, empty, or one entry longer. *)
Lemma view_history_cases env req ep w :
  session (snd (view env req ep w)) = session w
  \/ session (snd (view env req ep w)) = empty_session
  \/ (logged_in w = true
      /\ session (snd (view env req ep w))
         = mkSession (username (session w)) (Some []))
  \/ session (snd (view env req ep w)) = mkSession (Some "user") (Some [])
  \/ (logged_in w = true
      /\ exists lbl conf,
           session (snd (view env req ep w))
           = mkSession (username (session w))
               (Some (history w
                      ++ [mkEntry lbl conf (lbl +:+ "_" +:+ now_strftime env)])%list)).
Proof.
  destruct ep; cbn [view].
  - left. unfold home, bind, get. by destruct (logged_in w).
  - unfold login. destruct (String.eqb (method req) "POST"); [|by left].
    destruct (String.eqb_spec (form_get req "username") "user") as [->|];
      [|by left].
    destruct (String.eqb (form_get req "password") "54321"); [|by left].
    right. right. right. left. reflexivity.
  - right. left. reflexivity.
  - left. unfold index, bind, get. by destruct (negb (logged_in w)).
  - left. unfold dashboards, bind, get. by destruct (negb (logged_in w)).
  - destruct (process_emotion_outcome env req w) as (r & fr & Hout & ->).
    cbn [snd]. rewrite swept_session.
    inversion Hout; subst; cbn [world session]; auto.
    do 4 right. split; [assumption|]. eauto.
  - left. unfold get_history, bind, get. by destruct (negb (logged_in w)).
  - unfold clear_history, bind, get.
    destruct (logged_in w) eqn:Hin; cbn [negb]; [|by left].
    right. right. left. split; reflexivity.
Qed.

Lemma logged_in_consistent w :
  consistent (session w) -> logged_in w = true ->
  username (session w) = Some "user".
Proof.
  unfold logged_in. intros [[Hu _] | [Hu _]]; rewrite Hu; [discriminate | done].
Qed.

Lemma view_consistent env req ep w :
  consistent (session w) -> consistent (session (snd (view env req ep w))).
Proof.
  intros Hc.
  destruct (view_history_cases env req ep w)
    as [-> | [-> | [[Hin ->] | [-> | [Hin (lbl & conf & ->)]]]]]; try assumption.
  - by left.
  - right. rewrite (logged_in_consistent w Hc Hin). cbn. eauto.
  - right. cbn. eauto.
  - right. rewrite (logged_in_consistent w Hc Hin). cbn. eauto.
Qed.

(** X13. Over any sequence of requests, starting from a session that is
    signed out with no history (as a new one is) or signed in as "user"
    with a history, the session stays of one of these two kinds: the user
    name, when present, is "user", and the keys ['username'] and
    ['emotion_history'] are present or absent together. *)
Theorem sessions_stay_consistent (steps : list (Env * Request * Endpoint))
    (w : World) :
  consistent (session w) -> consistent (session (run steps w)).
Proof.
  revert w. induction steps as [|[[env req] ep] steps IH]; intros w Hc;
    cbn [run]; [assumption|].
  apply IH. by apply view_consistent.
Qed.

Lemma sessions_stay_consistent_witness :
  consistent (session Sample.anonymous)
  /\ consistent
       (session
          (run [(Sample.env, Sample.credentials "user" "54321", ep_login);
                (Sample.env, Sample.upload "a.png", ep_process_emotion);
                (Sample.env, Sample.upload "a.png", ep_clear_history)]
             Sample.anonymous)).
Proof.
  assert (Hc : consistent (session Sample.anonymous)) by (left; split; reflexivity).
  split; [exact Hc|].
  exact (sessions_stay_consistent _ Sample.anonymous Hc).
Defined.

Lemma view_stamped env req ep w :
  Forall stamped (history w) ->
  Forall stamped (history (snd (view env req ep w))).
Proof.
  intros Hall. unfold history in *.
  destruct (view_history_cases env req ep w)
    as [-> | [-> | [[_ ->] | [-> | [_ (lbl & conf & ->)]]]]];
    cbn [emotion_history empty_session default]; try assumption;
    try by constructor.
  apply Forall_app. split; [assumption|].
  constructor; [|constructor]. by exists (now_strftime env).
Qed.

(** X14. Every entry the handlers record is named after its own emotion:
    over any sequence of requests, if the file name of each entry of the
    history is the entry's emotion followed by an underscore and a stamp,
    this is still so afterwards. *)
Theorem history_entries_stay_stamped (steps : list (Env * Request * Endpoint))
    (w : World) :
  Forall stamped (history w) -> Forall stamped (history (run steps w)).
Proof.
  revert w. induction steps as [|[[env req] ep] steps IH]; intros w Hall;
    cbn [run]; [assumption|].
  apply IH. by apply view_stamped.
Qed.

Lemma history_entries_stay_stamped_witness :
  Forall stamped (history Sample.anonymous)
  /\ Forall stamped
       (history
          (run [(Sample.env, Sample.credentials "user" "54321", ep_login);
                (Sample.env, Sample.upload "a.png", ep_process_emotion);
                (Faceless.env, Sample.upload "b.gif", ep_process_emotion)]
             Sample.anonymous)).
Proof.
  assert (Hall : Forall stamped (history Sample.anonymous)) by constructor.
  split; [exact Hall|].
  exact (history_entries_stay_stamped _ Sample.anonymous Hall).
Defined.

Lemma gated_view_refuses env req ep w :
  logged_in w = false ->
  session_gated ep = true ->
  view env req ep w =
    (Ok (if api_endpoint ep then Json (JMessage "Not authenticated") 401
         else Redirect ep_login), w).
Proof.
  intros Hout Hgated. destruct ep; try discriminate; cbn [view api_endpoint].
  - unfold index, bind, get. by rewrite Hout.
  - unfold dashboards, bind, get. by rewrite Hout.
  - by apply process_emotion_unauthenticated.
  - unfold get_history, bind, get. by rewrite Hout.
  - unfold clear_history, bind, get. by rewrite Hout.
Qed.

(** X15. Logging out ends the session whatever it held: the session is
    empty afterwards, nothing else of the world changes, the root page
    sends to the login view, and every gated view turns the next request
    away (401 for the API views, a redirect to the login view for the
    pages) without touching the world. *)
Theorem logout_ends_the_session (w : World) :
  exists w1,
    logout w = (Ok (Redirect ep_login), w1)
    /\ w1 = mkWorld empty_session (tmpfiles w) (stdout w) (trace w)
    /\ home w1 = (Ok (Redirect ep_login), w1)
    /\ forall env req ep,
         session_gated ep = true ->
         view env req ep w1 =
           (Ok (if api_endpoint ep then Json (JMessage "Not authenticated") 401
                else Redirect ep_login), w1).
Proof.
  eexists. split; [reflexivity|]. split; [reflexivity|]. split; [reflexivity|].
  intros env req ep Hgated. by apply gated_view_refuses.
Qed.

Lemma logout_ends_the_session_witness :
  session_gated ep_get_history = true
  /\ view Sample.env (Sample.upload "a.png") ep_get_history
       (snd (logout (Sample.signed_in [Sample.entry])))
     = (Ok (Json (JMessage "Not authenticated") 401), Sample.anonymous).
Proof.
  split; [reflexivity|].
  destruct (logout_ends_the_session (Sample.signed_in [Sample.entry]))
    as (w1 & Hrun & Hw1 & _ & Hgated).
  rewrite Hrun. cbn [snd]. rewrite (Hgated Sample.env (Sample.upload "a.png")
                                      ep_get_history eq_refl).
  rewrite Hw1. reflexivity.
Defined.

(** X16. A login POST with the right credentials opens the application
    whatever the session held before: afterwards the root page sends to
    the main page, the main page and the dashboard are rendered, and
    get-history returns an empty history; none of them changes the
    world. *)
Theorem login_opens_the_pages (req : Request) (w : World) :
  method req = "POST" ->
  form_get req "username" = "user" ->
  form_get req "password" = "54321" ->
  exists w1,
    login req w = (Ok (Redirect ep_index), w1)
    /\ home w1 = (Ok (Redirect ep_index), w1)
    /\ index w1 = (Ok (Render "index.html" None), w1)
    /\ dashboards w1 = (Ok (Render "dashboards.html" None), w1)
    /\ get_history w1 = (Ok (Json (JHistory []) 200), w1).
Proof.
  intros Hpost Huser Hpass. unfold login. rewrite Hpost, Huser, Hpass.
  cbn. eexists. split; [reflexivity|]. repeat split.
Qed.

Lemma login_opens_the_pages_witness :
  exists w1,
    login (Sample.credentials "user" "54321") (Sample.signed_in [Sample.entry])
    = (Ok (Redirect ep_index), w1)
    /\ get_history w1 = (Ok (Json (JHistory []) 200), w1).
Proof.
  destruct (login_opens_the_pages (Sample.credentials "user" "54321")
              (Sample.signed_in [Sample.entry]) eq_refl eq_refl eq_refl)
    as (w1 & Hlogin & _ & _ & _ & Hget).
  exists w1. split; assumption.
Defined.

(** ** The temporary path *)

Lemma string_length_app (a b : string) :
  String.length (a +:+ b) = (String.length a + String.length b)%nat.
Proof.
  induction a as [|c a IH]; [reflexivity|].
  change (S (String.length (a +:+ b)) = S (String.length a + String.length b)).
  by rewrite IH.
Qed.

Lemma string_app_inv_head (a b c : string) : a +:+ b = a +:+ c -> b = c.
Proof.
  induction a as [|x a IH]; [done|].
  change (String x (a +:+ b) = String x (a +:+ c) -> b = c).
  intros [= H]. by apply IH.
Qed.

Lemma string_app_inv_tail (a b c : string) : a +:+ c = b +:+ c -> a = b.
Proof.
  revert b. induction a as [|x a IH]; intros [|y b] H.
  - reflexivity.
  - change (c = String y (b +:+ c)) in H.
    apply (f_equal String.length) in H. cbn [String.length] in H.
    rewrite string_length_app in H. lia.
  - change (String x (a +:+ c) = c) in H.
    apply (f_equal String.length) in H. cbn [String.length] in H.
    rewrite string_length_app in H. lia.
  - change (String x (a +:+ c) = String y (b +:+ c)) in H.
    injection H as -> H. f_equal. by apply IH.
Qed.

(** X17. The temporary file is named after the request's UUID: two
    requests served with the same temporary directory and different UUIDs
    get different temporary paths, so neither writes or removes the
    other's file. *)
Theorem tmp_path_is_unique (env1 env2 : Env) :
  gettempdir env1 = gettempdir env2 ->
  uuid4_hex env1 <> uuid4_hex env2 ->
  tmp_path env1 <> tmp_path env2.
Proof.
  intros Hdir Huuid Hpath. apply Huuid.
  unfold tmp_path, os_path_join in Hpath. rewrite Hdir in Hpath.
  change (String.prefix "/" ("temp_" +:+ uuid4_hex env1 +:+ ".jpg")) with false in Hpath.
  change (String.prefix "/" ("temp_" +:+ uuid4_hex env2 +:+ ".jpg")) with false in Hpath.
  cbv iota in Hpath.
  destruct (_ || _) in Hpath; apply string_app_inv_head in Hpath;
    try apply (string_app_inv_head "/") in Hpath;
    apply (string_app_inv_head "temp_") in Hpath;
    by apply string_app_inv_tail in Hpath.
Qed.

Lemma tmp_path_is_unique_witness :
  gettempdir Sample.env = gettempdir Failing.chat_down
  /\ uuid4_hex Sample.env <> uuid4_hex Failing.chat_down
  /\ tmp_path Sample.env <> tmp_path Failing.chat_down.
Proof.
  assert (Huuid : uuid4_hex Sample.env <> uuid4_hex Failing.chat_down)
    by discriminate.
  split; [reflexivity|]. split; [exact Huuid|].
  exact (tmp_path_is_unique Sample.env Failing.chat_down eq_refl Huuid).
Defined.

(** ** The answer of a successful request *)

(** X18. When the session is signed in, the upload is accepted and every
    collaborator succeeds, the handler answers 200 with the dominant
    emotion of the first face, its score, the generated text as it came,
    and a JPEG data URI holding the base64 of the encoded picture on which
    exactly two things were drawn: a green box of thickness 2 around the
    face region and, ten pixels above its corner, the caption made of the
    label and the score with one decimal.  One entry is appended to the
    history; when the removal succeeds and the path was free, the world
    is otherwise as before except for the two recorded calls. *)
Theorem successful_request_answer (env : Env) (req : Request) (w : World)
    (file : Upload) (fd : FaceData) (rest : list FaceData) (score : Q)
    (text buffer : string) (img : Image) :
  logged_in w = true ->
  files req !! "image" = Some file ->
  accepted file ->
  file_save env = Saved ->
  DeepFace_analyze env (tmp_path env) (Some (content file)) = Ok (fd :: rest) ->
  emotion fd !! dominant_emotion fd = Some score ->
  ollama_chat env (chat_request (dominant_emotion fd) score)
  = Ok (mkChatResponse (Some text)) ->
  cv2_imread env (Some (content file)) = Some img ->
  cv2_imencode env ".jpg"
    (mkImage (pixels img)
       (drawn img ++
        [Rectangle (box_x (region fd), box_y (region fd))
           (box_x (region fd) + box_w (region fd),
            box_y (region fd) + box_h (region fd))%Z (0, 255, 0)%Z 2;
         PutText (dominant_emotion fd +:+ " (" +:+ PyFloat.format_1f score +:+ "%)")
           (box_x (region fd), box_y (region fd) - 10)%Z (9 # 10)
           (0, 255, 0)%Z 2])%list)
  = Ok buffer ->
  os_remove env = None ->
  tmpfiles w !! tmp_path env = None ->
  process_emotion env req w
  = (Ok (Json (JResult ("data:image/jpeg;base64," +:+ b64encode env buffer)
                 (dominant_emotion fd) score text) 200),
     mkWorld
       (mkSession (username (session w))
          (Some (history w
                 ++ [mkEntry (dominant_emotion fd) score
                       (dominant_emotion fd +:+ "_" +:+ now_strftime env)])%list))
       (tmpfiles w) (stdout w)
       (trace w ++ [EvAnalyze (tmp_path env) ["emotion"] "retinaface" false;
                    EvChat (chat_request (dominant_emotion fd) score)])%list).
Proof.
  intros Hin Hfile Hacc Hsave Han Hscore Hchat Hread Henc Hrm Hfree.
  rewrite process_emotion_run, (body_after_validation _ _ _ _ Hin Hfile Hacc).
  unfold accepted_run. rewrite Hsave, Han. cbn [detection_of]. rewrite Hscore.
  cbn [label confidence]. rewrite Hchat. cbn [text_of message_content].
  rewrite Hread.
  assert (Hann : annotated (mkDetection (region fd) (dominant_emotion fd) score) img
                 = mkImage (pixels img)
                     (drawn img ++
                      [Rectangle (box_x (region fd), box_y (region fd))
                         (box_x (region fd) + box_w (region fd),
                          box_y (region fd) + box_h (region fd))%Z (0, 255, 0)%Z 2;
                       PutText (dominant_emotion fd +:+ " (" +:+ PyFloat.format_1f score +:+ "%)")
                         (box_x (region fd), box_y (region fd) - 10)%Z (9 # 10)
                         (0, 255, 0)%Z 2])%list).
  { unfold annotated, draw. cbn [pixels drawn box label confidence].
    by rewrite <- app_assoc. }
  rewrite Hann, Henc. cbn [fst snd response_of]. f_equal.
  unfold swept. cbn [temp_path world tmpfiles session stdout trace].
  rewrite tmp_path_nonempty, Hrm. unfold saved_files. rewrite Hsave.
  rewrite lookup_insert_eq. cbn [negb andb].
  rewrite bool_decide_eq_true_2 by eauto.
  rewrite delete_insert_eq. by rewrite delete_id.
Qed.

Lemma successful_request_answer_witness :
  process_emotion Sample.env (Sample.upload "me.png") (Sample.signed_in [Sample.entry])
  = (Ok (Json (JResult "data:image/jpeg;base64,bytes" "happy" (395 # 32)
                 "Tonight's vibe is happy.") 200),
     mkWorld
       (mkSession (Some "user")
          (Some [Sample.entry; mkEntry "happy" (395 # 32) "happy_20240101_120000"]))
       ∅ []
       [EvAnalyze (tmp_path Sample.env) ["emotion"] "retinaface" false;
        EvChat (chat_request "happy" (395 # 32))]).
Proof.
  assert (Hacc : accepted Failing.png).
  { split; [discriminate|]. split; [reflexivity|]. vm_compute. reflexivity. }
  assert (Hscore : emotion Sample.face !! dominant_emotion Sample.face
                   = Some (395 # 32)).
  { vm_compute. reflexivity. }
  exact (successful_request_answer Sample.env (Sample.upload "me.png")
           (Sample.signed_in [Sample.entry]) Failing.png Sample.face []
           (395 # 32) "Tonight's vibe is happy." "bytes" (mkImage "bytes" [])
           eq_refl eq_refl Hacc eq_refl eq_refl Hscore eq_refl eq_refl eq_refl
           eq_refl eq_refl).
Defined.

(** X19. What a successful request records is what get-history returns
    next: after a response with a result, get-history answers with the
    earlier history followed by one entry that carries the label and the
    confidence of that response, and leaves the world as it is. *)
Theorem recorded_entry_is_returned (env : Env) (req : Request) (w w' : World)
    (image lbl mood : string) (conf : Q) :
  process_emotion env req w = (Ok (Json (JResult image lbl conf mood) 200), w') ->
  get_history w'
  = (Ok (Json (JHistory (history w
                         ++ [mkEntry lbl conf (lbl +:+ "_" +:+ now_strftime env)])%list)
           200), w').
Proof.
  intros Hrun.
  destruct (process_emotion_outcome env req w) as (r & fr & Hout & Heq).
  rewrite Heq in Hrun. injection Hrun as Hresp Hworld.
  assert (Hsession : session w' = session (world fr))
    by (subst w'; apply swept_session).
  inversion Hout; subst r fr; cbn [response_of] in Hresp; try discriminate.
  - match goal with H : failure _ |- _ => destruct H as [[e ->]| ->] end;
      discriminate.
  - injection Hresp as <- <- <- <-. cbn [world session] in Hsession.
    unfold get_history, bind, get, logged_in, history. rewrite Hsession.
    cbn [username emotion_history]. unfold logged_in in *.
    destruct (username (session w)); [reflexivity | discriminate].
Qed.

Lemma recorded_entry_is_returned_witness :
  exists w',
    process_emotion Sample.env (Sample.upload "me.JPG") (Sample.signed_in [Sample.entry])
    = (Ok (Json (JResult "data:image/jpeg;base64,bytes" "happy" (395 # 32)
                   "Tonight's vibe is happy.") 200), w')
    /\ get_history w'
       = (Ok (Json (JHistory [Sample.entry;
                              mkEntry "happy" (395 # 32) "happy_20240101_120000"])
                200), w').
Proof.
  eexists. split; [vm_compute; reflexivity|].
  apply (recorded_entry_is_returned Sample.env (Sample.upload "me.JPG")
           (Sample.signed_in [Sample.entry]) _
           "data:image/jpeg;base64,bytes" "happy" "Tonight's vibe is happy."
           (395 # 32)).
  vm_compute. reflexivity.
Defined.
